(** * Chat-app client: a shallow embedding of the React handlers

    The repository is a browser front end.  Every handler of a component is
    embedded as a function on the component's state, run to completion: the
    outcome of each network request the handler awaits is an argument, and
    the state updates are applied in the order the promise callbacks run.
    Where what a callback closed over matters, or where nothing keeps a
    second event from coming before the answer (removing a friend, the
    connection check), the handler is given in two parts: the click, up to
    the request, and the answer, on the state of the moment it arrives.
    Besides the component's [useState] cells a handler leaves three traces:
    what it wrote with [console.error], the requests it issued, and the
    callbacks (props) it invoked. *)

From Stdlib Require Import ZArith NArith Strings.String Strings.Ascii.
From stdpp Require Import base list gmap.

Open Scope Z_scope.

(** ** JavaScript values *)

(** A JavaScript string is a sequence of UTF-16 code units; [length] is the
    number of code units and [===] compares the sequences. *)
Abbreviation jsstring := (list N).

(** A string literal of the source (the literals are ASCII). *)
Fixpoint lit (s : string) : jsstring :=
  match s with
  | EmptyString => []
  | String a s' => N_of_ascii a :: lit s'
  end.

(** [a === b] on strings. *)
Definition str_eq (a b : jsstring) : bool := bool_decide (a = b).

(** ToBoolean on a string: only the empty string is falsy. *)
Definition truthy (s : jsstring) : bool :=
  match s with [] => false | _ :: _ => true end.

(** [s || d] for a string [s] and [m || d] for a possibly undefined [m]. *)
Definition or_else (s d : jsstring) : jsstring := if truthy s then s else d.

Definition or_default (m : option jsstring) (d : jsstring) : jsstring :=
  match m with
  | Some s => or_else s d
  | None => d
  end.

(** WhiteSpace and LineTerminator code points, as [String.prototype.trim]
    strips them. *)
Definition is_white_space (c : N) : bool :=
  ((c =? 0x09) || (c =? 0x0A) || (c =? 0x0B) || (c =? 0x0C) || (c =? 0x0D)
   || (c =? 0x20) || (c =? 0xA0) || (c =? 0x1680)
   || ((0x2000 <=? c) && (c <=? 0x200A))
   || (c =? 0x2028) || (c =? 0x2029) || (c =? 0x202F) || (c =? 0x205F)
   || (c =? 0x3000) || (c =? 0xFEFF))%N.

Fixpoint trimStart (s : jsstring) : jsstring :=
  match s with
  | c :: s' => if is_white_space c then trimStart s' else s
  | [] => []
  end.

Definition trimEnd (s : jsstring) : jsstring := rev (trimStart (rev s)).

Definition trim (s : jsstring) : jsstring := trimEnd (trimStart s).

(** [arr.slice(start)]: a negative [start] counts from the end, and the
    start index is clamped to the array. *)
Definition slice {A} (start : Z) (arr : list A) : list A :=
  let len := Z.of_nat (length arr) in
  let k := if start <? 0 then Z.max (len + start) 0 else Z.min start len in
  drop (Z.to_nat k) arr.

(** [arr.some(p)], [arr.filter(p)] and [arr.map(f)]. *)
Definition some {A} (p : A -> bool) (arr : list A) : bool := existsb p arr.

Fixpoint array_filter {A} (p : A -> bool) (arr : list A) : list A :=
  match arr with
  | [] => []
  | x :: arr' => if p x then x :: array_filter p arr' else array_filter p arr'
  end.

Definition array_map {A B} (f : A -> B) (arr : list A) : list B := List.map f arr.

(** ** The network, the console and the props *)

(** A thrown or rejected value: [new Error(message)]. *)
Record JsError := Error { err_message : jsstring }.

Inductive Method := GET | POST | PUT | DELETE.

Record Request := {
  method : Method;
  url : jsstring;
  body : option (list (string * jsstring))
}.

(** A JSON body as the fetch-based screens read it: [data.success] is truthy
    and the payload is there, or it is falsy; [data.message] may be
    undefined. *)
Inductive Json (P : Type) :=
| JsonSuccess (payload : P) (message : option jsstring)
| JsonFailure (message : option jsstring).
Arguments JsonSuccess {P} payload message.
Arguments JsonFailure {P} message.

Definition json_message {P} (d : Json P) : option jsstring :=
  match d with
  | JsonSuccess _ m => m
  | JsonFailure m => m
  end.

(** What [fetch(...)] comes to: the promise rejects (no response at all), or
    it resolves with a response whose [ok] flag is the 2xx test and whose
    [json()] rejects or yields the parsed body. *)
Inductive FetchResult (P : Type) :=
| Rejected (e : JsError)
| Resolved (ok : bool) (json : JsError + Json P).
Arguments Rejected {P} e.
Arguments Resolved {P} ok json.

(** What an axios call comes to: axios rejects on a network failure and on a
    status outside 2xx, and resolves with [response.data] otherwise. *)
Inductive AxiosResult (P : Type) :=
| AxiosRejected (e : JsError)
| AxiosResolved (data : P).
Arguments AxiosRejected {P} e.
Arguments AxiosResolved {P} data.

(** The [User] of the client tree (Login.tsx, App.tsx, Profile.tsx). *)
Module User.
Record User := {
  username : jsstring;
  bio : jsstring;
  avatar : jsstring
}.
End User.

(** The props a screen may invoke. *)
Inductive PropCall :=
| onLogin (user : User.User)
| onRegister
| onFriendSelect (friendUsername : jsstring).

(** What [console.error(label, value)] was given: a caught error, or a
    [data.message] that may be undefined. *)
Inductive Logged :=
| LogError (e : JsError)
| LogMessage (m : option jsstring).

(** A component's state with the traces of its handlers. *)
Record World (S : Type) := {
  ui : S;
  console : list (string * Logged);
  sent : list Request;
  calls : list PropCall
}.
Arguments ui {S} w.
Arguments console {S} w.
Arguments sent {S} w.
Arguments calls {S} w.

Definition mount {S} (s : S) : World S :=
  {| ui := s; console := []; sent := []; calls := [] |}.

Definition update {S} (f : S -> S) (w : World S) : World S :=
  {| ui := f (ui w); console := console w; sent := sent w; calls := calls w |}.

Definition console_error {S} (label : string) (v : Logged) (w : World S) : World S :=
  {| ui := ui w; console := console w ++ [(label, v)]; sent := sent w; calls := calls w |}.

Definition fetch {S} (r : Request) (w : World S) : World S :=
  {| ui := ui w; console := console w; sent := sent w ++ [r]; calls := calls w |}.

Definition call {S} (c : PropCall) (w : World S) : World S :=
  {| ui := ui w; console := console w; sent := sent w; calls := calls w ++ [c] |}.

Notation "w |> f" := (f w) (at level 45, left associativity, only parsing).

Definition NETWORK_ERROR : jsstring := lit "Network error. Please try again.".

(** ** client/src/components/ChatRoom.tsx *)

Module ChatRoom.

Record Message := {
  username : jsstring;
  message : jsstring;
  timestamp : jsstring
}.

Definition MAX_MESSAGES : Z := 100.

(** The message events the component subscribes to. *)
Inductive SocketEvent :=
| message_history (messages : list Message)
| new_message (data : Message).

(** The [setMessages] updaters of the two handlers. *)
Definition on_message_history (data : list Message) (prev : list Message) : list Message :=
  slice (- MAX_MESSAGES) (prev ++ data).

Definition on_new_message (data : Message) (prev : list Message) : list Message :=
  slice (- MAX_MESSAGES) (prev ++ [data]).

Definition on_event (ev : SocketEvent) (prev : list Message) : list Message :=
  match ev with
  | message_history data => on_message_history data prev
  | new_message data => on_new_message data prev
  end.

(** The [messages] state after a run of events, from [useState([])]. *)
Definition run (evs : list SocketEvent) : list Message :=
  foldl (fun prev ev => on_event ev prev) [] evs.

End ChatRoom.

(** ** client/src/components/Login.tsx *)

Module Login.

Record State := {
  username : jsstring;
  password : jsstring;
  error : option jsstring;
  isLoading : bool
}.

Definition setUsername (v : jsstring) (s : State) : State :=
  {| username := v; password := password s; error := error s; isLoading := isLoading s |}.

Definition setPassword (v : jsstring) (s : State) : State :=
  {| username := username s; password := v; error := error s; isLoading := isLoading s |}.

Definition setError (v : option jsstring) (s : State) : State :=
  {| username := username s; password := password s; error := v; isLoading := isLoading s |}.

Definition setIsLoading (v : bool) (s : State) : State :=
  {| username := username s; password := password s; error := error s; isLoading := v |}.

(** The [catch (err)] block. *)
Definition catch (err : JsError) (w : World State) : World State :=
  w |> update (setError (Some (or_else (err_message err) NETWORK_ERROR)))
    |> console_error "Login error:" (LogError err).

(** [handleSubmit]: [net] is what the POST to /api/login comes to. *)
Definition handleSubmit (net : FetchResult User.User) (w : World State) : World State :=
  let username := username (ui w) in
  let password := password (ui w) in
  let w := w |> update (setError None) in
  if negb (truthy (trim username)) || negb (truthy (trim password)) then
    w |> update (setError (Some (lit "Username and password are required")))
  else
    let w :=
      w |> update (setIsLoading true)
        |> fetch {| method := POST;
                    url := lit "http://localhost:5000/api/login";
                    body := Some [("username"%string, trim username);
                                  ("password"%string, password)] |} in
    let w :=
      match net with
      | Rejected err => w |> catch err
      | Resolved false (inl err) => w |> catch err
      | Resolved false (inr errorData) =>
          w |> catch (Error (or_default (json_message errorData) (lit "Login failed")))
      | Resolved true (inl err) => w |> catch err
      | Resolved true (inr (JsonSuccess user _)) =>
          w |> call (onLogin user)
            |> update (setUsername [])
            |> update (setPassword [])
            |> update (setError None)
      | Resolved true (inr (JsonFailure m)) =>
          w |> update (setError (Some (or_default m (lit "Login failed"))))
      end in
    w |> update (setIsLoading false).

End Login.

(** ** client/src/components/Register.tsx *)

Module Register.

Record State := {
  username : jsstring;
  password : jsstring;
  confirmPassword : jsstring;
  error : option jsstring;
  isLoading : bool
}.

Definition setUsername (v : jsstring) (s : State) : State :=
  {| username := v; password := password s; confirmPassword := confirmPassword s;
     error := error s; isLoading := isLoading s |}.

Definition setPassword (v : jsstring) (s : State) : State :=
  {| username := username s; password := v; confirmPassword := confirmPassword s;
     error := error s; isLoading := isLoading s |}.

Definition setConfirmPassword (v : jsstring) (s : State) : State :=
  {| username := username s; password := password s; confirmPassword := v;
     error := error s; isLoading := isLoading s |}.

Definition setError (v : option jsstring) (s : State) : State :=
  {| username := username s; password := password s; confirmPassword := confirmPassword s;
     error := v; isLoading := isLoading s |}.

Definition setIsLoading (v : bool) (s : State) : State :=
  {| username := username s; password := password s; confirmPassword := confirmPassword s;
     error := error s; isLoading := v |}.

Definition catch (err : JsError) (w : World State) : World State :=
  w |> update (setError (Some (or_else (err_message err) NETWORK_ERROR)))
    |> console_error "Registration error:" (LogError err).

(** [handleSubmit]: [net] is what the POST to /api/register comes to. *)
Definition handleSubmit (net : FetchResult unit) (w : World State) : World State :=
  let username := username (ui w) in
  let password := password (ui w) in
  let confirmPassword := confirmPassword (ui w) in
  let w := w |> update (setError None) in
  if negb (truthy (trim username)) || negb (truthy (trim password))
     || negb (truthy (trim confirmPassword)) then
    w |> update (setError (Some (lit "All fields are required")))
  else if negb (str_eq password confirmPassword) then
    w |> update (setError (Some (lit "Passwords do not match")))
  else if (length username <? 3)%nat then
    w |> update (setError (Some (lit "Username must be at least 3 characters")))
  else if (length password <? 6)%nat then
    w |> update (setError (Some (lit "Password must be at least 6 characters")))
  else
    let w :=
      w |> update (setIsLoading true)
        |> fetch {| method := POST;
                    url := lit "http://localhost:5000/api/register";
                    body := Some [("username"%string, trim username);
                                  ("password"%string, password)] |} in
    let w :=
      match net with
      | Rejected err => w |> catch err
      | Resolved false (inl err) => w |> catch err
      | Resolved false (inr errorData) =>
          w |> catch (Error (or_default (json_message errorData) (lit "Registration failed")))
      | Resolved true (inl err) => w |> catch err
      | Resolved true (inr (JsonSuccess _ _)) =>
          w |> update (setUsername [])
            |> update (setPassword [])
            |> update (setConfirmPassword [])
            |> update (setError None)
            |> call onRegister
      | Resolved true (inr (JsonFailure m)) =>
          w |> update (setError (Some (or_default m (lit "Registration failed"))))
      end in
    w |> update (setIsLoading false).

End Register.

(** ** src/components/FriendsList.tsx (the screen with suggestions) *)

Module FriendsList.

Record Friend := {
  username : jsstring;
  online : bool;
  bio : jsstring;
  avatar : jsstring
}.

(** [onFriendSelect] is optional: the flag says whether the parent gave it. *)
Record Props := {
  props_username : jsstring;
  has_onFriendSelect : bool;
  sidebarMode : bool
}.

Record State := {
  friends : list Friend;
  newFriend : jsstring;
  error : jsstring;
  success : jsstring;
  isLoading : bool;
  suggestions : list Friend;
  targetUser : jsstring;
  isConnected : option bool;
  path : list jsstring
}.

Definition setFriends (v : list Friend) (s : State) : State :=
  {| friends := v; newFriend := newFriend s; error := error s; success := success s;
     isLoading := isLoading s; suggestions := suggestions s; targetUser := targetUser s;
     isConnected := isConnected s; path := path s |}.

Definition setNewFriend (v : jsstring) (s : State) : State :=
  {| friends := friends s; newFriend := v; error := error s; success := success s;
     isLoading := isLoading s; suggestions := suggestions s; targetUser := targetUser s;
     isConnected := isConnected s; path := path s |}.

Definition setError (v : jsstring) (s : State) : State :=
  {| friends := friends s; newFriend := newFriend s; error := v; success := success s;
     isLoading := isLoading s; suggestions := suggestions s; targetUser := targetUser s;
     isConnected := isConnected s; path := path s |}.

Definition setSuccess (v : jsstring) (s : State) : State :=
  {| friends := friends s; newFriend := newFriend s; error := error s; success := v;
     isLoading := isLoading s; suggestions := suggestions s; targetUser := targetUser s;
     isConnected := isConnected s; path := path s |}.

Definition setIsLoading (v : bool) (s : State) : State :=
  {| friends := friends s; newFriend := newFriend s; error := error s; success := success s;
     isLoading := v; suggestions := suggestions s; targetUser := targetUser s;
     isConnected := isConnected s; path := path s |}.

Definition setSuggestions (v : list Friend) (s : State) : State :=
  {| friends := friends s; newFriend := newFriend s; error := error s; success := success s;
     isLoading := isLoading s; suggestions := v; targetUser := targetUser s;
     isConnected := isConnected s; path := path s |}.

Definition friends_url : jsstring := lit "http://localhost:5000/api/friends".

(** The [.catch] the friends, add and remove chains share, up to the label. *)
Definition catch (label : string) (err : JsError) (w : World State) : World State :=
  w |> console_error label (LogError err)
    |> update (setError NETWORK_ERROR).

Definition fetchFriends (net : FetchResult (list Friend)) (w : World State) : World State :=
  let w :=
    w |> update (setIsLoading true)
      |> fetch {| method := GET; url := friends_url; body := None |} in
  let w :=
    match net with
    | Rejected err => w |> catch "Error fetching friends:" err
    | Resolved false _ =>
        w |> catch "Error fetching friends:" (Error (lit "Failed to fetch friends"))
    | Resolved true (inl err) => w |> catch "Error fetching friends:" err
    | Resolved true (inr (JsonSuccess data_friends _)) =>
        w |> update (setFriends data_friends)
    | Resolved true (inr (JsonFailure m)) =>
        w |> update (setError (or_default m (lit "Failed to load friends")))
    end in
  w |> update (setIsLoading false).

Definition fetchSuggestions (net : FetchResult (list Friend)) (w : World State) : World State :=
  let w :=
    w |> fetch {| method := GET;
                  url := lit "http://localhost:5000/api/friends/suggestions";
                  body := None |} in
  match net with
  | Rejected err => w |> console_error "Error fetching suggestions:" (LogError err)
  | Resolved false _ =>
      w |> console_error "Error fetching suggestions:"
             (LogError (Error (lit "Failed to fetch suggestions")))
  | Resolved true (inl err) =>
      w |> console_error "Error fetching suggestions:" (LogError err)
  | Resolved true (inr (JsonSuccess data_suggestions _)) =>
      w |> update (setSuggestions data_suggestions)
  | Resolved true (inr (JsonFailure _)) => w
  end.

(** What the requests of one handler come to: the handler's own POST or
    DELETE and the two reloads it may start. *)
Record Net := {
  net_own : FetchResult unit;
  net_friends : FetchResult (list Friend);
  net_suggestions : FetchResult (list Friend)
}.

Definition handleAddFriend (props : Props) (net : Net) (w : World State) : World State :=
  let newFriend := newFriend (ui w) in
  let friends := friends (ui w) in
  let w := w |> update (setError []) |> update (setSuccess []) in
  if negb (truthy (trim newFriend)) then
    w |> update (setError (lit "Please enter a username"))
  else if str_eq newFriend (props_username props) then
    w |> update (setError (lit "You can't add yourself as a friend"))
  else if some (fun friend => str_eq (username friend) newFriend) friends then
    w |> update (setError (lit "This user is already your friend"))
  else
    let w :=
      w |> update (setIsLoading true)
        |> fetch {| method := POST; url := friends_url;
                    body := Some [("username"%string, newFriend)] |} in
    let w :=
      match net_own net with
      | Rejected err => w |> catch "Error adding friend:" err
      | Resolved false _ =>
          w |> catch "Error adding friend:" (Error (lit "Failed to add friend"))
      | Resolved true (inl err) => w |> catch "Error adding friend:" err
      | Resolved true (inr (JsonSuccess _ _)) =>
          w |> update (setSuccess (newFriend ++ lit " added as a friend"))
            |> update (setNewFriend [])
            |> fetchFriends (net_friends net)
            |> fetchSuggestions (net_suggestions net)
      | Resolved true (inr (JsonFailure m)) =>
          w |> update (setError (or_default m (lit "Failed to add friend")))
      end in
    w |> update (setIsLoading false).

Definition handleAddSuggestedFriend (friendUsername : jsstring) (net : Net)
    (w : World State) : World State :=
  let w :=
    w |> update (setIsLoading true)
      |> fetch {| method := POST; url := friends_url;
                  body := Some [("username"%string, friendUsername)] |} in
  let w :=
    match net_own net with
    | Rejected err => w |> catch "Error adding friend:" err
    | Resolved false _ =>
        w |> catch "Error adding friend:" (Error (lit "Failed to add friend"))
    | Resolved true (inl err) => w |> catch "Error adding friend:" err
    | Resolved true (inr (JsonSuccess _ _)) =>
        w |> update (setSuccess (friendUsername ++ lit " added as a friend"))
          |> fetchFriends (net_friends net)
          |> fetchSuggestions (net_suggestions net)
    | Resolved true (inr (JsonFailure m)) =>
        w |> update (setError (or_default m (lit "Failed to add friend")))
    end in
  w |> update (setIsLoading false).

(** [handleAddFriend] for a name that passes the three checks and a POST
    answered with success, up to the end of its own chain: the two reloads
    are issued and not answered yet, and the [finally] has put [isLoading]
    back to false, so the Remove buttons are enabled while the reload of
    the friends is in flight. *)
Definition handleAddFriend_reloading (w : World State) : World State :=
  let newFriend := newFriend (ui w) in
  w |> update (setError []) |> update (setSuccess [])
    |> update (setIsLoading true)
    |> fetch {| method := POST; url := friends_url;
                body := Some [("username"%string, newFriend)] |}
    |> update (setSuccess (newFriend ++ lit " added as a friend"))
    |> update (setNewFriend [])
    |> update (setIsLoading true)
    |> fetch {| method := GET; url := friends_url; body := None |}
    |> fetch {| method := GET;
                url := lit "http://localhost:5000/api/friends/suggestions";
                body := None |}
    |> update (setIsLoading false).

(** What the callbacks of [handleRemoveFriend] close over: the friend to
    remove, and the [friends] and [newFriend] of the render the click came
    from. *)
Record Removing := {
  removing : jsstring;
  closed_friends : list Friend;
  closed_newFriend : jsstring
}.

(** [handleRemoveFriend], up to the request: [confirmed] is the answer to
    [window.confirm].  The second component is what the pending chain closed
    over; there is none when the user declines. *)
Definition handleRemoveFriend (confirmed : bool) (friendUsername : jsstring)
    (w : World State) : World State * option Removing :=
  if confirmed then
    (w |> update (setIsLoading true)
       |> fetch {| method := DELETE; url := friends_url;
                   body := Some [("username"%string, friendUsername)] |},
     Some {| removing := friendUsername;
             closed_friends := friends (ui w);
             closed_newFriend := newFriend (ui w) |})
  else (w, None).

(** The DELETE is answered: the [.then], [.catch] and [.finally] of the
    chain, on the state of that moment.  What is filtered is the list the
    chain closed over, not the list of that moment. *)
Definition handleRemoveFriend_answered (props : Props) (r : Removing) (net : Net)
    (w : World State) : World State :=
  let friendUsername := removing r in
  let w :=
    match net_own net with
    | Rejected err => w |> catch "Error removing friend:" err
    | Resolved false _ =>
        w |> catch "Error removing friend:" (Error (lit "Failed to remove friend"))
    | Resolved true (inl err) => w |> catch "Error removing friend:" err
    | Resolved true (inr (JsonSuccess _ _)) =>
        let w :=
          w |> update (setFriends
                         (array_filter
                            (fun friend => negb (str_eq (username friend) friendUsername))
                            (closed_friends r)))
            |> update (setSuccess (friendUsername ++ lit " removed from friends"))
            |> fetchSuggestions (net_suggestions net) in
        if has_onFriendSelect props && str_eq friendUsername (closed_newFriend r)
        then w |> call (onFriendSelect [])
        else w
    | Resolved true (inr (JsonFailure m)) =>
        w |> update (setError (or_default m (lit "Failed to remove friend")))
    end in
  w |> update (setIsLoading false).

(** The answer to the GET of [fetchFriends] arrives: the [.then], [.catch]
    and [.finally] of its chain, on the state of that moment. *)
Definition fetchFriends_answered (net : FetchResult (list Friend)) (w : World State)
    : World State :=
  let w :=
    match net with
    | Rejected err => w |> catch "Error fetching friends:" err
    | Resolved false _ =>
        w |> catch "Error fetching friends:" (Error (lit "Failed to fetch friends"))
    | Resolved true (inl err) => w |> catch "Error fetching friends:" err
    | Resolved true (inr (JsonSuccess data_friends _)) =>
        w |> update (setFriends data_friends)
    | Resolved true (inr (JsonFailure m)) =>
        w |> update (setError (or_default m (lit "Failed to load friends")))
    end in
  w |> update (setIsLoading false).

End FriendsList.

(** ** unnamed/part_000, second file: the FriendsList screen without
    suggestions *)

Module FriendsList0.

Record Friend := {
  username : jsstring;
  online : bool;
  bio : jsstring;
  avatar : jsstring
}.

Record Props := {
  props_username : jsstring;
  has_onFriendSelect : bool;
  sidebarMode : bool
}.

Record State := {
  friends : list Friend;
  newFriend : jsstring;
  error : jsstring;
  success : jsstring;
  isLoading : bool
}.

Definition setFriends (v : list Friend) (s : State) : State :=
  {| friends := v; newFriend := newFriend s; error := error s; success := success s;
     isLoading := isLoading s |}.

Definition setNewFriend (v : jsstring) (s : State) : State :=
  {| friends := friends s; newFriend := v; error := error s; success := success s;
     isLoading := isLoading s |}.

Definition setError (v : jsstring) (s : State) : State :=
  {| friends := friends s; newFriend := newFriend s; error := v; success := success s;
     isLoading := isLoading s |}.

Definition setSuccess (v : jsstring) (s : State) : State :=
  {| friends := friends s; newFriend := newFriend s; error := error s; success := v;
     isLoading := isLoading s |}.

Definition setIsLoading (v : bool) (s : State) : State :=
  {| friends := friends s; newFriend := newFriend s; error := error s; success := success s;
     isLoading := v |}.

Definition friends_url : jsstring := lit "http://localhost:5000/api/friends".

Definition catch (label : string) (err : JsError) (w : World State) : World State :=
  w |> console_error label (LogError err)
    |> update (setError NETWORK_ERROR).

Definition fetchFriends (net : FetchResult (list Friend)) (w : World State) : World State :=
  let w :=
    w |> update (setIsLoading true)
      |> fetch {| method := GET; url := friends_url; body := None |} in
  let w :=
    match net with
    | Rejected err => w |> catch "Error fetching friends:" err
    | Resolved false _ =>
        w |> catch "Error fetching friends:" (Error (lit "Failed to fetch friends"))
    | Resolved true (inl err) => w |> catch "Error fetching friends:" err
    | Resolved true (inr (JsonSuccess data_friends _)) =>
        w |> update (setFriends data_friends)
    | Resolved true (inr (JsonFailure m)) =>
        w |> update (setError (or_default m (lit "Failed to load friends")))
    end in
  w |> update (setIsLoading false).

Definition handleAddFriend (props : Props) (net : FetchResult unit)
    (net_friends : FetchResult (list Friend)) (w : World State) : World State :=
  let newFriend := newFriend (ui w) in
  let friends := friends (ui w) in
  let w := w |> update (setError []) |> update (setSuccess []) in
  if negb (truthy (trim newFriend)) then
    w |> update (setError (lit "Please enter a username"))
  else if str_eq newFriend (props_username props) then
    w |> update (setError (lit "You can't add yourself as a friend"))
  else if some (fun friend => str_eq (username friend) newFriend) friends then
    w |> update (setError (lit "This user is already your friend"))
  else
    let w :=
      w |> update (setIsLoading true)
        |> fetch {| method := POST; url := friends_url;
                    body := Some [("username"%string, newFriend)] |} in
    let w :=
      match net with
      | Rejected err => w |> catch "Error adding friend:" err
      | Resolved false _ =>
          w |> catch "Error adding friend:" (Error (lit "Failed to add friend"))
      | Resolved true (inl err) => w |> catch "Error adding friend:" err
      | Resolved true (inr (JsonSuccess _ _)) =>
          w |> update (setSuccess (newFriend ++ lit " added as a friend"))
            |> update (setNewFriend [])
            |> fetchFriends net_friends
      | Resolved true (inr (JsonFailure m)) =>
          w |> update (setError (or_default m (lit "Failed to add friend")))
      end in
    w |> update (setIsLoading false).

Record Removing := {
  removing : jsstring;
  closed_friends : list Friend;
  closed_newFriend : jsstring
}.

(** [handleRemoveFriend], up to the request, and what its chain closed
    over. *)
Definition handleRemoveFriend (confirmed : bool) (friendUsername : jsstring)
    (w : World State) : World State * option Removing :=
  if confirmed then
    (w |> update (setIsLoading true)
       |> fetch {| method := DELETE; url := friends_url;
                   body := Some [("username"%string, friendUsername)] |},
     Some {| removing := friendUsername;
             closed_friends := friends (ui w);
             closed_newFriend := newFriend (ui w) |})
  else (w, None).

(** The DELETE is answered, on the state of that moment. *)
Definition handleRemoveFriend_answered (props : Props) (r : Removing)
    (net : FetchResult unit) (w : World State) : World State :=
  let friendUsername := removing r in
  let w :=
    match net with
    | Rejected err => w |> catch "Error removing friend:" err
    | Resolved false _ =>
        w |> catch "Error removing friend:" (Error (lit "Failed to remove friend"))
    | Resolved true (inl err) => w |> catch "Error removing friend:" err
    | Resolved true (inr (JsonSuccess _ _)) =>
        let w :=
          w |> update (setFriends
                         (array_filter
                            (fun friend => negb (str_eq (username friend) friendUsername))
                            (closed_friends r)))
            |> update (setSuccess (friendUsername ++ lit " removed from friends")) in
        if has_onFriendSelect props && str_eq friendUsername (closed_newFriend r)
        then w |> call (onFriendSelect [])
        else w
    | Resolved true (inr (JsonFailure m)) =>
        w |> update (setError (or_default m (lit "Failed to remove friend")))
    end in
  w |> update (setIsLoading false).

(** The answer to the GET of [fetchFriends] arrives. *)
Definition fetchFriends_answered (net : FetchResult (list Friend)) (w : World State)
    : World State :=
  let w :=
    match net with
    | Rejected err => w |> catch "Error fetching friends:" err
    | Resolved false _ =>
        w |> catch "Error fetching friends:" (Error (lit "Failed to fetch friends"))
    | Resolved true (inl err) => w |> catch "Error fetching friends:" err
    | Resolved true (inr (JsonSuccess data_friends _)) =>
        w |> update (setFriends data_friends)
    | Resolved true (inr (JsonFailure m)) =>
        w |> update (setError (or_default m (lit "Failed to load friends")))
    end in
  w |> update (setIsLoading false).

End FriendsList0.

(** ** unnamed/part_004: the Notifications screen with an error banner *)

Module Notifications.

Record State := {
  notifications : list jsstring;
  isLoading : bool;
  error : option jsstring
}.

Definition setNotifications (v : list jsstring) (s : State) : State :=
  {| notifications := v; isLoading := isLoading s; error := error s |}.

Definition setIsLoading (v : bool) (s : State) : State :=
  {| notifications := notifications s; isLoading := v; error := error s |}.

Definition setError (v : option jsstring) (s : State) : State :=
  {| notifications := notifications s; isLoading := isLoading s; error := v |}.

Definition notifications_url : jsstring := lit "http://localhost:5000/api/notifications".

Definition catch (label : string) (err : JsError) (w : World State) : World State :=
  w |> console_error label (LogError err)
    |> update (setError (Some NETWORK_ERROR)).

(** The [new_notification] socket handler. *)
Definition on_new_notification (data_message : jsstring) (w : World State) : World State :=
  w |> update (fun s => setNotifications (notifications s ++ [data_message]) s).

Definition fetchNotifications (net : FetchResult (list jsstring)) (w : World State)
    : World State :=
  let w :=
    w |> update (setIsLoading true)
      |> update (setError None)
      |> fetch {| method := GET; url := notifications_url; body := None |} in
  let w :=
    match net with
    | Rejected err => w |> catch "Error fetching notifications:" err
    | Resolved false _ =>
        w |> catch "Error fetching notifications:"
               (Error (lit "Failed to fetch notifications"))
    | Resolved true (inl err) => w |> catch "Error fetching notifications:" err
    | Resolved true (inr (JsonSuccess data_notifications _)) =>
        w |> update (setNotifications data_notifications)
    | Resolved true (inr (JsonFailure m)) =>
        w |> update (setError (Some (or_default m (lit "Failed to load notifications"))))
    end in
  w |> update (setIsLoading false).

Definition clearNotifications (net : FetchResult unit) (w : World State) : World State :=
  let w :=
    w |> update (setIsLoading true)
      |> update (setError None)
      |> fetch {| method := DELETE; url := notifications_url; body := None |} in
  let w :=
    match net with
    | Rejected err => w |> catch "Error clearing notifications:" err
    | Resolved false _ =>
        w |> catch "Error clearing notifications:"
               (Error (lit "Failed to clear notifications"))
    | Resolved true (inl err) => w |> catch "Error clearing notifications:" err
    | Resolved true (inr (JsonSuccess _ _)) => w |> update (setNotifications [])
    | Resolved true (inr (JsonFailure m)) =>
        w |> update (setError (Some (or_default m (lit "Failed to clear notifications"))))
    end in
  w |> update (setIsLoading false).

End Notifications.

(** ** unnamed/part_000, first file: the Notifications screen that only logs *)

Module Notifications0.

Record State := {
  notifications : list jsstring;
  isLoading : bool
}.

Definition setNotifications (v : list jsstring) (s : State) : State :=
  {| notifications := v; isLoading := isLoading s |}.

Definition setIsLoading (v : bool) (s : State) : State :=
  {| notifications := notifications s; isLoading := v |}.

Definition notifications_url : jsstring := lit "http://localhost:5000/api/notifications".

Definition clearNotifications (net : FetchResult unit) (w : World State) : World State :=
  let w := w |> fetch {| method := DELETE; url := notifications_url; body := None |} in
  match net with
  | Rejected err => w |> console_error "Error clearing notifications:" (LogError err)
  | Resolved false _ =>
      w |> console_error "Error clearing notifications:"
             (LogError (Error (lit "Failed to clear notifications")))
  | Resolved true (inl err) =>
      w |> console_error "Error clearing notifications:" (LogError err)
  | Resolved true (inr (JsonSuccess _ _)) => w |> update (setNotifications [])
  | Resolved true (inr (JsonFailure m)) =>
      w |> console_error "Failed to clear notifications:" (LogMessage m)
  end.

End Notifications0.

(** ** client/src/App.tsx *)

Module App.

Record State := {
  isAuthenticated : bool;
  user : option User.User;
  showLogin : bool;
  activeTab : jsstring;
  notifications : list jsstring;
  selectedFriend : option jsstring
}.

Definition setNotifications (v : list jsstring) (s : State) : State :=
  {| isAuthenticated := isAuthenticated s; user := user s; showLogin := showLogin s;
     activeTab := activeTab s; notifications := v; selectedFriend := selectedFriend s |}.

(** [clearNotifications]: the chain goes from the response straight to
    [response.json()]; the status is not looked at. *)
Definition clearNotifications (net : FetchResult unit) (w : World State) : World State :=
  let w :=
    w |> fetch {| method := DELETE;
                  url := lit "http://localhost:5000/api/notifications";
                  body := None |} in
  match net with
  | Rejected err => w |> console_error "Error clearing notifications:" (LogError err)
  | Resolved _ (inl err) =>
      w |> console_error "Error clearing notifications:" (LogError err)
  | Resolved _ (inr (JsonSuccess _ _)) => w |> update (setNotifications [])
  | Resolved _ (inr (JsonFailure _)) => w
  end.

End App.

(** ** The [user] that [useAuth()] gives the contexts (AuthContext) *)

Module AuthContext.
Record User := {
  id : jsstring;
  username : jsstring;
  email : jsstring;
  profilePic : jsstring
}.
End AuthContext.

(** ** frontend/src/contexts/ChatContext.tsx *)

Module ChatContext.

Inductive Status := online | offline.

Module Friend.
Record Friend := {
  id : jsstring;
  username : jsstring;
  profilePic : jsstring;
  status : Status
}.
End Friend.

Module Message.
Record Message := {
  id : jsstring;
  senderId : jsstring;
  receiverId : jsstring;
  content : jsstring;
  timestamp : jsstring
}.
End Message.

(** [messages] is a [Record<string, Message[]>]: a finite map from the chat
    id to the chat's messages.  (The keys are user ids; the names of
    [Object.prototype] are not among them.) *)
Record State := {
  friends : list Friend.Friend;
  friendRequests : list Friend.Friend;
  messages : gmap jsstring (list Message.Message);
  currentChat : option Friend.Friend;
  loadingFriends : bool;
  loadingMessages : bool
}.

Definition setFriends (v : list Friend.Friend) (s : State) : State :=
  {| friends := v; friendRequests := friendRequests s; messages := messages s;
     currentChat := currentChat s; loadingFriends := loadingFriends s;
     loadingMessages := loadingMessages s |}.

Definition setMessages (v : gmap jsstring (list Message.Message)) (s : State) : State :=
  {| friends := friends s; friendRequests := friendRequests s; messages := v;
     currentChat := currentChat s; loadingFriends := loadingFriends s;
     loadingMessages := loadingMessages s |}.

Definition setCurrentChat (v : option Friend.Friend) (s : State) : State :=
  {| friends := friends s; friendRequests := friendRequests s; messages := messages s;
     currentChat := v; loadingFriends := loadingFriends s;
     loadingMessages := loadingMessages s |}.

(** [message.senderId === user?.id ? message.receiverId : message.senderId] *)
Definition chatId (user : option AuthContext.User) (message : Message.Message) : jsstring :=
  match user with
  | Some u =>
      if str_eq (Message.senderId message) (AuthContext.id u)
      then Message.receiverId message
      else Message.senderId message
  | None => Message.senderId message
  end.

(** The updater of the ['message'] handler:
    [{ ...prev, [chatId]: [...(prev[chatId] || []), message] }]. *)
Definition on_message (user : option AuthContext.User) (message : Message.Message)
    (prev : gmap jsstring (list Message.Message)) : gmap jsstring (list Message.Message) :=
  let chatId := chatId user message in
  <[chatId := default [] (prev !! chatId) ++ [message]]> prev.

(** The updater of the ['friend_status'] handler. *)
Definition on_friend_status (userId : jsstring) (status : Status)
    (prev : list Friend.Friend) : list Friend.Friend :=
  array_map
    (fun friend =>
       if str_eq (Friend.id friend) userId
       then {| Friend.id := Friend.id friend;
               Friend.username := Friend.username friend;
               Friend.profilePic := Friend.profilePic friend;
               Friend.status := status |}
       else friend)
    prev.

(** [removeFriend]: the second component is the error the returned promise
    rejects with, if it does. *)
Definition removeFriend (user : option AuthContext.User) (userId : jsstring)
    (net : AxiosResult unit) (w : World State) : World State * option JsError :=
  let currentChat := currentChat (ui w) in
  match user with
  | None => (w, None)
  | Some _ =>
      let w :=
        w |> fetch {| method := DELETE;
                      url := lit "http://localhost:5000/api/friends/" ++ userId;
                      body := None |} in
      match net with
      | AxiosRejected error =>
          (w |> console_error "Failed to remove friend:" (LogError error),
           Some (Error (lit "Failed to remove friend")))
      | AxiosResolved _ =>
          let w :=
            w |> update (fun s =>
                   setFriends
                     (array_filter
                        (fun friend => negb (str_eq (Friend.id friend) userId))
                        (friends s)) s) in
          let w :=
            match currentChat with
            | Some c =>
                if str_eq (Friend.id c) userId
                then w |> update (setCurrentChat None)
                else w
            | None => w
            end in
          (w, None)
      end
  end.

End ChatContext.

(** ** unnamed/part_007, third file: the NotificationProvider *)

Module NotificationContext.

Inductive NotificationType := friend_request | message | system.

Record Notification := {
  id : jsstring;
  type : NotificationType;
  senderId : option jsstring;
  senderName : option jsstring;
  content : jsstring;
  read : bool;
  timestamp : jsstring
}.

(** The provider keeps no error cell: [notifications] and [loading] are all
    its state. *)
Record State := {
  notifications : list Notification;
  loading : bool
}.

Definition setNotifications (v : list Notification) (s : State) : State :=
  {| notifications := v; loading := loading s |}.

Definition setLoading (v : bool) (s : State) : State :=
  {| notifications := notifications s; loading := v |}.


End NotificationContext.

(** ** client/src/components/ChatRoom.tsx: typing and sending *)

Module ChatRoomInput.

(** [selectedFriend: string | null], also as a field of an emitted object,
    where it may be left [undefined]. *)
Inductive Field :=
| Undefined
| Null
| Str (s : jsstring).

Definition field_truthy (f : Field) : bool :=
  match f with
  | Str s => truthy s
  | _ => false
  end.

Record Props := {
  username : jsstring;
  selectedFriend : Field
}.

(** What the component gives [socketInstance.emit]. *)
Inductive Emit :=
| emit_message_friend (friend : Field) (message : jsstring)
| emit_message_room (room : jsstring) (message : jsstring)
| emit_typing (room : Field) (friend : Field) (typing : bool).

(** The callback [handleInputChange] gives [setTimeout]: it closes over the
    [isTyping] of the render the keystroke came from, and over what it would
    emit. *)
Record Timeout := {
  closed_isTyping : bool;
  closed_room : Field;
  closed_friend : Field
}.

(** The cells of the component that typing and sending read or write;
    [typingTimeout] is the timer of [typingTimeoutRef] while it is pending. *)
Record State := {
  message : jsstring;
  messages : list ChatRoom.Message;
  currentRoom : jsstring;
  typingUsers : gmap jsstring bool;
  isTyping : bool;
  directChatMode : bool;
  typingTimeout : option Timeout
}.

Definition setMessage (v : jsstring) (s : State) : State :=
  {| message := v; messages := messages s; currentRoom := currentRoom s;
     typingUsers := typingUsers s; isTyping := isTyping s;
     directChatMode := directChatMode s; typingTimeout := typingTimeout s |}.

Definition setTypingUsers (v : gmap jsstring bool) (s : State) : State :=
  {| message := message s; messages := messages s; currentRoom := currentRoom s;
     typingUsers := v; isTyping := isTyping s;
     directChatMode := directChatMode s; typingTimeout := typingTimeout s |}.

Definition setIsTyping (v : bool) (s : State) : State :=
  {| message := message s; messages := messages s; currentRoom := currentRoom s;
     typingUsers := typingUsers s; isTyping := v;
     directChatMode := directChatMode s; typingTimeout := typingTimeout s |}.

Definition set_typingTimeout (v : option Timeout) (s : State) : State :=
  {| message := message s; messages := messages s; currentRoom := currentRoom s;
     typingUsers := typingUsers s; isTyping := isTyping s;
     directChatMode := directChatMode s; typingTimeout := v |}.

(** The ['typing_update'] handler. *)
Definition on_typing_update (props : Props) (data_username : jsstring) (data_typing : bool)
    (s : State) : State :=
  if negb (str_eq data_username (username props))
  then setTypingUsers (<[data_username := data_typing]> (typingUsers s)) s
  else s.

(** The fields [room] and [friend] of a ['typing'] emit. *)
Definition typing_room (s : State) : Field :=
  if directChatMode s then Undefined else Str (currentRoom s).

Definition typing_friend (props : Props) (s : State) : Field :=
  if directChatMode s then selectedFriend props else Undefined.

(** [handleSendMessage]; [socket] says whether [getSocket()] gives one. *)
Definition handleSendMessage (props : Props) (socket : bool) (s : State)
    : State * list Emit :=
  if negb socket || negb (truthy (trim (message s))) then (s, [])
  else
    let sent_message :=
      if directChatMode s && field_truthy (selectedFriend props)
      then [emit_message_friend (selectedFriend props) (message s)]
      else if truthy (currentRoom s)
      then [emit_message_room (currentRoom s) (message s)]
      else [] in
    (s |> setMessage [] |> setIsTyping false |> set_typingTimeout None,
     sent_message ++ [emit_typing (typing_room s) (typing_friend props s) false]).

(** [handleInputChange] with [e.target.value]. *)
Definition handleInputChange (props : Props) (socket : bool) (value : jsstring) (s : State)
    : State * list Emit :=
  if negb socket then (s, [])
  else
    let started := negb (isTyping s) && truthy (trim value) in
    let s' := s |> setMessage value in
    let s' := if started then s' |> setIsTyping true else s' in
    (s' |> set_typingTimeout
             (Some {| closed_isTyping := isTyping s;
                      closed_room := typing_room s;
                      closed_friend := typing_friend props s |}),
     if started
     then [emit_typing (typing_room s) (typing_friend props s) true]
     else []).

(** The pending timeout fires, 2000 ms after the last keystroke. *)
Definition timeout_fires (s : State) : State * list Emit :=
  match typingTimeout s with
  | None => (s, [])
  | Some t =>
      let s' := s |> set_typingTimeout None in
      if closed_isTyping t
      then (s' |> setIsTyping false,
            [emit_typing (closed_room t) (closed_friend t) false])
      else (s', [])
  end.

(** The typing events of others, one after the other. *)
Definition typing_run (props : Props) (evs : list (jsstring * bool)) (s : State) : State :=
  foldl (fun s ev => on_typing_update props ev.1 ev.2 s) s evs.

End ChatRoomInput.

(** ** src/components/FriendsList.tsx: the connection check *)

Module FriendsListConnection.

Definition setIsConnected (v : option bool) (s : FriendsList.State) : FriendsList.State :=
  {| FriendsList.friends := FriendsList.friends s;
     FriendsList.newFriend := FriendsList.newFriend s;
     FriendsList.error := FriendsList.error s;
     FriendsList.success := FriendsList.success s;
     FriendsList.isLoading := FriendsList.isLoading s;
     FriendsList.suggestions := FriendsList.suggestions s;
     FriendsList.targetUser := FriendsList.targetUser s;
     FriendsList.isConnected := v;
     FriendsList.path := FriendsList.path s |}.

Definition setPath (v : list jsstring) (s : FriendsList.State) : FriendsList.State :=
  {| FriendsList.friends := FriendsList.friends s;
     FriendsList.newFriend := FriendsList.newFriend s;
     FriendsList.error := FriendsList.error s;
     FriendsList.success := FriendsList.success s;
     FriendsList.isLoading := FriendsList.isLoading s;
     FriendsList.suggestions := FriendsList.suggestions s;
     FriendsList.targetUser := FriendsList.targetUser s;
     FriendsList.isConnected := FriendsList.isConnected s;
     FriendsList.path := v |}.

Definition connected_url (targetUser : jsstring) : jsstring :=
  lit "http://localhost:5000/api/friends/connected?target=" ++ targetUser.

Definition path_url (targetUser : jsstring) : jsstring :=
  lit "http://localhost:5000/api/friends/path?target=" ++ targetUser.

(** [handleCheckConnection], up to the two requests: the click.  Nothing
    in it or in the button's [disabled] keeps a second click from coming
    before the answers to the first. *)
Definition handleCheckConnection (w : World FriendsList.State) : World FriendsList.State :=
  let targetUser := FriendsList.targetUser (ui w) in
  if negb (truthy (trim targetUser)) then
    w |> update (FriendsList.setError (lit "Please enter a username to check"))
  else
    w |> update (setIsConnected None)
      |> update (setPath [])
      |> fetch {| method := GET; url := connected_url targetUser; body := None |}
      |> fetch {| method := GET; url := path_url targetUser; body := None |}.

(** The answer to a connectivity query arrives: the [.then]s and the
    [.catch] of the first chain, on the state of that moment. *)
Definition connected_answered (net : FetchResult bool) (w : World FriendsList.State)
    : World FriendsList.State :=
  match net with
  | Rejected err => w |> FriendsList.catch "Error checking connection:" err
  | Resolved false _ =>
      w |> FriendsList.catch "Error checking connection:"
             (Error (lit "Failed to check connection"))
  | Resolved true (inl err) => w |> FriendsList.catch "Error checking connection:" err
  | Resolved true (inr (JsonSuccess data_connected _)) =>
      w |> update (setIsConnected (Some data_connected))
  | Resolved true (inr (JsonFailure _)) => w
  end.

(** The answer to a path query arrives: the second chain. *)
Definition path_answered (net : FetchResult (list jsstring)) (w : World FriendsList.State)
    : World FriendsList.State :=
  match net with
  | Rejected err => w |> console_error "Error fetching path:" (LogError err)
  | Resolved false _ =>
      w |> console_error "Error fetching path:"
             (LogError (Error (lit "Failed to fetch path")))
  | Resolved true (inl err) => w |> console_error "Error fetching path:" (LogError err)
  | Resolved true (inr (JsonSuccess data_path _)) => w |> update (setPath data_path)
  | Resolved true (inr (JsonFailure _)) => w
  end.

End FriendsListConnection.

(** ** src/socket.ts *)

Module Socket.

(** The module keeps one variable, [socket]: the socket object, here its
    number and its [connected] flag (false from [io(...)] until the
    ['connect'] event).  [open_sockets] are the sockets [io] has made and
    [disconnect()] has not been called on; [next] numbers them. *)
Record State := {
  socket : option (nat * bool);
  open_sockets : list nat;
  next : nat
}.

Definition initial : State := {| socket := None; open_sockets := []; next := 0 |}.

(** [connectSocket()]: the socket returned, and the module afterwards. *)
Definition connectSocket (st : State) : nat * State :=
  match socket st with
  | Some (i, true) => (i, st)
  | _ =>
      let i := next st in
      (i, {| socket := Some (i, false);
             open_sockets := open_sockets st ++ [i];
             next := S i |})
  end.

Definition disconnectSocket (st : State) : State :=
  match socket st with
  | Some (i, _) =>
      {| socket := None;
         open_sockets := array_filter (fun j => negb (Nat.eqb j i)) (open_sockets st);
         next := next st |}
  | None => st
  end.

Definition getSocket (st : State) : option nat := fst <$> socket st.

(** The transport of the current socket comes up, or goes down. *)
Definition connect_event (st : State) : State :=
  {| socket := (fun s => (s.1, true)) <$> socket st;
     open_sockets := open_sockets st; next := next st |}.

Definition disconnect_event (st : State) : State :=
  {| socket := (fun s => (s.1, false)) <$> socket st;
     open_sockets := open_sockets st; next := next st |}.

End Socket.

(** ** client/src/App.tsx: logging in and out *)

Module AppSession.

(** The component, the ['user'] item of localStorage (the user that was
    serialised into it) and the socket module. *)
Record Session := {
  app : World App.State;
  stored_user : option User.User;
  sockets : Socket.State
}.

Definition setUser (v : option User.User) (s : App.State) : App.State :=
  {| App.isAuthenticated := App.isAuthenticated s; App.user := v;
     App.showLogin := App.showLogin s; App.activeTab := App.activeTab s;
     App.notifications := App.notifications s;
     App.selectedFriend := App.selectedFriend s |}.

Definition setIsAuthenticated (v : bool) (s : App.State) : App.State :=
  {| App.isAuthenticated := v; App.user := App.user s;
     App.showLogin := App.showLogin s; App.activeTab := App.activeTab s;
     App.notifications := App.notifications s;
     App.selectedFriend := App.selectedFriend s |}.

Definition setActiveTab (v : jsstring) (s : App.State) : App.State :=
  {| App.isAuthenticated := App.isAuthenticated s; App.user := App.user s;
     App.showLogin := App.showLogin s; App.activeTab := v;
     App.notifications := App.notifications s;
     App.selectedFriend := App.selectedFriend s |}.

Definition setSelectedFriend (v : option jsstring) (s : App.State) : App.State :=
  {| App.isAuthenticated := App.isAuthenticated s; App.user := App.user s;
     App.showLogin := App.showLogin s; App.activeTab := App.activeTab s;
     App.notifications := App.notifications s;
     App.selectedFriend := v |}.

Definition handleLogin (userData : User.User) (ss : Session) : Session :=
  {| app := app ss |> update (setUser (Some userData))
                   |> update (setIsAuthenticated true);
     stored_user := Some userData;
     sockets := (Socket.connectSocket (sockets ss)).2 |}.

(** The [.catch] of [handleLogout]: "Force logout even if server fails". *)
Definition force_logout (error : JsError) (ss : Session) : Session :=
  {| app := app ss |> console_error "Error during logout:" (LogError error)
                   |> update (setUser None)
                   |> update (setIsAuthenticated false);
     stored_user := None;
     sockets := Socket.disconnectSocket (sockets ss) |}.

Definition handleLogout (net : FetchResult unit) (ss : Session) : Session :=
  let ss :=
    {| app := app ss |> fetch {| method := POST;
                                 url := lit "http://localhost:5000/api/logout";
                                 body := None |};
       stored_user := stored_user ss;
       sockets := sockets ss |} in
  match net with
  | Rejected error => force_logout error ss
  | Resolved _ (inl error) => force_logout error ss
  | Resolved _ (inr (JsonSuccess _ _)) =>
      {| app := app ss |> update (setUser None)
                       |> update (setIsAuthenticated false)
                       |> update (App.setNotifications [])
                       |> update (setSelectedFriend None)
                       |> update (setActiveTab (lit "chat"));
         stored_user := None;
         sockets := Socket.disconnectSocket (sockets ss) |}
  | Resolved _ (inr (JsonFailure _)) => ss
  end.

(** [handleFriendSelect] *)
Definition handleFriendSelect (friendUsername : jsstring) (ss : Session) : Session :=
  {| app := app ss |> update (setSelectedFriend (Some friendUsername))
                   |> update (setActiveTab (lit "chat"));
     stored_user := stored_user ss;
     sockets := sockets ss |}.

End AppSession.

(** ** Axios rejections, as the catch blocks read them *)

(** [error.response] is there when the server answered with a status
    outside 2xx; [error.response.data.message] may be undefined.  An error
    thrown by the code itself has no [response]. *)
Record ErrorResponse := {
  status : Z;
  data_message : option jsstring
}.

Record Caught := {
  caught_error : JsError;
  response : option ErrorResponse
}.

Inductive AxiosOutcome (P : Type) :=
| AxiosFailed (error : Caught)
| AxiosDone (data : P).
Arguments AxiosFailed {P} error.
Arguments AxiosDone {P} data.

(** [error.response?.data?.message] *)
Definition response_message (error : Caught) : option jsstring :=
  match response error with
  | Some r => data_message r
  | None => None
  end.

(** ** frontend/src/contexts/ChatContext.tsx: the actions of the context *)

Module ChatContextActions.

Definition setFriendRequests (v : list ChatContext.Friend.Friend) (s : ChatContext.State)
    : ChatContext.State :=
  {| ChatContext.friends := ChatContext.friends s;
     ChatContext.friendRequests := v;
     ChatContext.messages := ChatContext.messages s;
     ChatContext.currentChat := ChatContext.currentChat s;
     ChatContext.loadingFriends := ChatContext.loadingFriends s;
     ChatContext.loadingMessages := ChatContext.loadingMessages s |}.

Definition setLoadingMessages (v : bool) (s : ChatContext.State) : ChatContext.State :=
  {| ChatContext.friends := ChatContext.friends s;
     ChatContext.friendRequests := ChatContext.friendRequests s;
     ChatContext.messages := ChatContext.messages s;
     ChatContext.currentChat := ChatContext.currentChat s;
     ChatContext.loadingFriends := ChatContext.loadingFriends s;
     ChatContext.loadingMessages := v |}.

(** What an action comes to: the provider afterwards, what it emitted on
    the socket (['send_message']), and the error its promise rejects with. *)
Record Result := {
  world : World ChatContext.State;
  emitted : list ChatContext.Message.Message;
  thrown : option JsError
}.

Definition done (w : World ChatContext.State) : Result :=
  {| world := w; emitted := []; thrown := None |}.

Definition throw (e : JsError) (w : World ChatContext.State) : Result :=
  {| world := w; emitted := []; thrown := Some e |}.

(** The updater of the ['friend_request'] handler. *)
Definition on_friend_request (request : ChatContext.Friend.Friend)
    (prev : list ChatContext.Friend.Friend) : list ChatContext.Friend.Friend :=
  prev ++ [request].

Definition loadMessages (user : option AuthContext.User) (friendId : jsstring)
    (net : AxiosResult (list ChatContext.Message.Message)) (w : World ChatContext.State)
    : World ChatContext.State :=
  match user with
  | None => w
  | Some _ =>
      let w :=
        w |> update (setLoadingMessages true)
          |> fetch {| method := GET;
                      url := lit "http://localhost:5000/api/messages/" ++ friendId;
                      body := None |} in
      let w :=
        match net with
        | AxiosResolved data =>
            w |> update (fun s =>
                   ChatContext.setMessages (<[friendId := data]> (ChatContext.messages s)) s)
        | AxiosRejected error =>
            w |> console_error "Failed to load messages:" (LogError error)
        end in
      w |> update (setLoadingMessages false)
  end.

(** [sendMessage]; [socket] says whether the provider has one. *)
Definition sendMessage (user : option AuthContext.User) (socket : bool) (content : jsstring)
    (net : AxiosResult ChatContext.Message.Message) (w : World ChatContext.State) : Result :=
  match user, ChatContext.currentChat (ui w), socket with
  | Some _, Some currentChat, true =>
      let w :=
        w |> fetch {| method := POST;
                      url := lit "http://localhost:5000/api/messages";
                      body := Some [("receiverId"%string, ChatContext.Friend.id currentChat);
                                    ("content"%string, content)] |} in
      match net with
      | AxiosResolved newMessage =>
          {| world :=
               w |> update (fun s =>
                      ChatContext.setMessages
                        (<[ChatContext.Friend.id currentChat :=
                             default [] (ChatContext.messages s
                                           !! ChatContext.Friend.id currentChat)
                             ++ [newMessage]]>
                           (ChatContext.messages s)) s);
             emitted := [newMessage];
             thrown := None |}
      | AxiosRejected error =>
          w |> console_error "Failed to send message:" (LogError error)
            |> throw (Error (lit "Failed to send message"))
      end
  | _, _, _ => done w
  end.

(** The updater of [deleteMessage]:
    [{ ...prev, [id]: prev[id].filter(msg => msg.id !== messageId) }];
    it has no value when [prev[id]] is undefined (a TypeError). *)
Definition delete_updater (chat messageId : jsstring)
    (prev : gmap jsstring (list ChatContext.Message.Message))
    : option (gmap jsstring (list ChatContext.Message.Message)) :=
  match prev !! chat with
  | Some msgs =>
      Some (<[chat := array_filter
                        (fun msg => negb (str_eq (ChatContext.Message.id msg) messageId))
                        msgs]> prev)
  | None => None
  end.

(** [deleteMessage]; the last component says whether the state update went
    through (it does not when the updater throws). *)
Definition deleteMessage (user : option AuthContext.User) (messageId : jsstring)
    (net : AxiosResult unit) (w : World ChatContext.State) : Result * bool :=
  match user, ChatContext.currentChat (ui w) with
  | Some _, Some currentChat =>
      let w :=
        w |> fetch {| method := DELETE;
                      url := lit "http://localhost:5000/api/messages/" ++ messageId;
                      body := None |} in
      match net with
      | AxiosResolved _ =>
          match delete_updater (ChatContext.Friend.id currentChat) messageId
                  (ChatContext.messages (ui w)) with
          | Some next => (done (w |> update (ChatContext.setMessages next)), true)
          | None => (done w, false)
          end
      | AxiosRejected error =>
          (w |> console_error "Failed to delete message:" (LogError error)
             |> throw (Error (lit "Failed to delete message")), true)
      end
  | _, _ => (done w, true)
  end.

(** [error.response] as the catch of [sendFriendRequest] reads it.  The
    catch reads [error.response.data.message] with no guard on [data]:
    [response_data] is [None] when [data] is null or undefined, and the
    message may be undefined. *)
Record FailedResponse := {
  response_status : Z;
  response_data : option (option jsstring)
}.

Inductive RequestOutcome :=
| RequestFailed (error : JsError) (response : option FailedResponse)
| RequestDone.

(** What the promise of [sendFriendRequest] comes to: it resolves with
    [{ success, message }], or it rejects with the TypeError of reading
    [message] off a [data] that is not there. *)
Inductive Sent :=
| Resolves (success : bool) (message : jsstring)
| RejectsTypeError.

Definition sendFriendRequest (user : option AuthContext.User) (userId : jsstring)
    (net : RequestOutcome) (w : World ChatContext.State) : World ChatContext.State * Sent :=
  match user with
  | None => (w, Resolves false (lit "You must be logged in to send friend requests"))
  | Some _ =>
      let w :=
        w |> fetch {| method := POST;
                      url := lit "http://localhost:5000/api/friends/request";
                      body := Some [("receiverId"%string, userId)] |} in
      match net with
      | RequestDone => (w, Resolves true (lit "Friend request sent successfully!"))
      | RequestFailed error response =>
          let w := w |> console_error "Failed to send friend request:" (LogError error) in
          match response with
          | Some r =>
              if response_status r =? 409 then
                match response_data r with
                | Some message =>
                    (w, Resolves false
                          (or_default message
                             (lit "You are already friends or have already sent a request to this user")))
                | None => (w, RejectsTypeError)
                end
              else
                (w, Resolves false
                      (lit "Failed to send friend request. Please try again later."))
          | None =>
              (w, Resolves false
                    (lit "Failed to send friend request. Please try again later."))
          end
      end
  end.

Definition acceptFriendRequest (user : option AuthContext.User) (userId : jsstring)
    (net : AxiosResult ChatContext.Friend.Friend) (w : World ChatContext.State) : Result :=
  match user with
  | None => done w
  | Some _ =>
      let w :=
        w |> fetch {| method := POST;
                      url := lit "http://localhost:5000/api/friends/accept/" ++ userId;
                      body := Some [] |} in
      match net with
      | AxiosResolved data =>
          done
            (w |> update (fun s =>
                    setFriendRequests
                      (array_filter
                         (fun req => negb (str_eq (ChatContext.Friend.id req) userId))
                         (ChatContext.friendRequests s)) s)
               |> update (fun s =>
                    ChatContext.setFriends (ChatContext.friends s ++ [data]) s))
      | AxiosRejected error =>
          w |> console_error "Failed to accept friend request:" (LogError error)
            |> throw (Error (lit "Failed to accept friend request"))
      end
  end.

Definition rejectFriendRequest (user : option AuthContext.User) (userId : jsstring)
    (net : AxiosResult unit) (w : World ChatContext.State) : Result :=
  match user with
  | None => done w
  | Some _ =>
      let w :=
        w |> fetch {| method := POST;
                      url := lit "http://localhost:5000/api/friends/reject/" ++ userId;
                      body := Some [] |} in
      match net with
      | AxiosResolved _ =>
          done
            (w |> update (fun s =>
                    setFriendRequests
                      (array_filter
                         (fun req => negb (str_eq (ChatContext.Friend.id req) userId))
                         (ChatContext.friendRequests s)) s))
      | AxiosRejected error =>
          w |> console_error "Failed to reject friend request:" (LogError error)
            |> throw (Error (lit "Failed to reject friend request"))
      end
  end.

End ChatContextActions.

(** ** unnamed/part_007, third file: the actions of the NotificationProvider *)

Module NotificationActions.

(** [unreadCount = notifications.filter(n => !n.read).length] *)
Definition unreadCount (s : NotificationContext.State) : nat :=
  length (array_filter (fun n => negb (NotificationContext.read n))
            (NotificationContext.notifications s)).

(** [{ ...notification, read: true }] *)
Definition as_read (n : NotificationContext.Notification) : NotificationContext.Notification :=
  {| NotificationContext.id := NotificationContext.id n;
     NotificationContext.type := NotificationContext.type n;
     NotificationContext.senderId := NotificationContext.senderId n;
     NotificationContext.senderName := NotificationContext.senderName n;
     NotificationContext.content := NotificationContext.content n;
     NotificationContext.read := true;
     NotificationContext.timestamp := NotificationContext.timestamp n |}.

(** The error the code throws for a missing token. *)
Definition no_token : Caught :=
  {| caught_error := Error (lit "No authentication token found"); response := None |}.

(** The [catch] the four actions share, up to the label and the default:
    [console.error(label, error);
     throw new Error(error.response?.data?.message || default)]. *)
Definition rethrow (label : string) (default_message : jsstring) (error : Caught)
    (w : World NotificationContext.State) : World NotificationContext.State * option JsError :=
  (w |> console_error label (LogError (caught_error error)),
   Some (Error (or_default (response_message error) default_message))).

(** The frame the four actions share: nothing without a user; the token
    test; the request; the local update when it resolves. *)
Definition action (label : string) (default_message : jsstring) (request : Request)
    (apply : NotificationContext.State -> NotificationContext.State)
    (user : option AuthContext.User) (token : option jsstring) (net : AxiosOutcome unit)
    (w : World NotificationContext.State) : World NotificationContext.State * option JsError :=
  match user with
  | None => (w, None)
  | Some _ =>
      if truthy (default [] token) then
        let w := w |> fetch request in
        match net with
        | AxiosDone _ => (w |> update apply, None)
        | AxiosFailed error => rethrow label default_message error w
        end
      else rethrow label default_message no_token w
  end.

Definition markAsRead (notificationId : jsstring) :=
  action "Failed to mark notification as read:"
    (lit "Failed to mark notification as read")
    {| method := PUT;
       url := lit "/api/notifications/" ++ notificationId ++ lit "/read";
       body := Some [] |}
    (fun s =>
       NotificationContext.setNotifications
         (array_map
            (fun notification =>
               if str_eq (NotificationContext.id notification) notificationId
               then as_read notification
               else notification)
            (NotificationContext.notifications s)) s).

Definition markAllAsRead :=
  action "Failed to mark all notifications as read:"
    (lit "Failed to mark all notifications as read")
    {| method := PUT; url := lit "/api/notifications/read-all"; body := Some [] |}
    (fun s =>
       NotificationContext.setNotifications
         (array_map as_read (NotificationContext.notifications s)) s).

Definition deleteNotification (notificationId : jsstring) :=
  action "Failed to delete notification:"
    (lit "Failed to delete notification")
    {| method := DELETE; url := lit "/api/notifications/" ++ notificationId; body := None |}
    (fun s =>
       NotificationContext.setNotifications
         (array_filter
            (fun notification =>
               negb (str_eq (NotificationContext.id notification) notificationId))
            (NotificationContext.notifications s)) s).

Definition clearAllNotifications :=
  action "Failed to clear all notifications:"
    (lit "Failed to clear all notifications")
    {| method := DELETE; url := lit "/api/notifications/clear-all"; body := None |}
    (NotificationContext.setNotifications []).

End NotificationActions.

(** ** unnamed/part_007, second file: the AuthProvider *)

Module AuthProvider.

Record State := {
  user : option AuthContext.User;
  loading : bool
}.

Definition setUser (v : option AuthContext.User) (s : State) : State :=
  {| user := v; loading := loading s |}.

Definition setLoading (v : bool) (s : State) : State :=
  {| user := user s; loading := v |}.

(** The provider and the ['token'] item of localStorage. *)
Record Auth := {
  provider : World State;
  token : option jsstring
}.

(** [response.data] of the login and register endpoints. *)
Record Granted := {
  granted_token : jsstring;
  granted_user : AuthContext.User
}.

(** [checkAuth], run once when the provider mounts. *)
Definition checkAuth (net : AxiosResult AuthContext.User) (a : Auth) : Auth :=
  let failed (error : JsError) (w : World State) : Auth :=
    {| provider := w |> console_error "Auth check failed:" (LogError error)
                     |> update (setUser None)
                     |> update (setLoading false);
       token := None |} in
  if truthy (default [] (token a)) then
    let w := provider a |> fetch {| method := GET; url := lit "/api/auth/me"; body := None |} in
    match net with
    | AxiosResolved data =>
        {| provider := w |> update (setUser (Some data)) |> update (setLoading false);
           token := token a |}
    | AxiosRejected error => failed error w
    end
  else failed (Error (lit "No token found")) (provider a).

Definition login (email password : jsstring) (net : AxiosOutcome Granted) (a : Auth)
    : Auth * option JsError :=
  let w :=
    provider a |> fetch {| method := POST; url := lit "/api/auth/login";
                           body := Some [("email"%string, email);
                                         ("password"%string, password)] |} in
  match net with
  | AxiosDone data =>
      ({| provider := w |> update (setUser (Some (granted_user data)));
          token := Some (granted_token data) |}, None)
  | AxiosFailed error =>
      ({| provider := w; token := token a |},
       Some (Error (or_default (response_message error) (lit "Login failed"))))
  end.

Definition register (username email password : jsstring) (net : AxiosOutcome Granted)
    (a : Auth) : Auth * option JsError :=
  let w :=
    provider a |> fetch {| method := POST; url := lit "/api/auth/register";
                           body := Some [("username"%string, username);
                                         ("email"%string, email);
                                         ("password"%string, password)] |} in
  match net with
  | AxiosDone data =>
      ({| provider := w |> update (setUser (Some (granted_user data)));
          token := Some (granted_token data) |}, None)
  | AxiosFailed error =>
      ({| provider := w; token := token a |},
       Some (Error (or_default (response_message error) (lit "Registration failed"))))
  end.

Definition logout (a : Auth) : Auth :=
  {| provider := provider a |> update (setUser None); token := None |}.

(** [updateProfile]: [data] is what is PUT; the user becomes what the
    server returns. *)
Definition updateProfile (data : list (string * jsstring))
    (net : AxiosOutcome AuthContext.User) (a : Auth) : Auth * option JsError :=
  let no_token : Caught :=
    {| caught_error := Error (lit "No authentication token found"); response := None |} in
  let rethrow (error : Caught) : option JsError :=
    Some (Error (or_default (response_message error) (lit "Profile update failed"))) in
  if truthy (default [] (token a)) then
    let w :=
      provider a |> fetch {| method := PUT; url := lit "/api/users/profile";
                             body := Some data |} in
    match net with
    | AxiosDone returned =>
        ({| provider := w |> update (setUser (Some returned)); token := token a |}, None)
    | AxiosFailed error => ({| provider := w; token := token a |}, rethrow error)
    end
  else (a, rethrow no_token).

End AuthProvider.

(** ** src/components/Profile.tsx *)

Module Profile.

Record State := {
  bio : jsstring;
  avatar : jsstring;
  isLoading : bool;
  error : jsstring;
  success : jsstring
}.

Definition setIsLoading (v : bool) (s : State) : State :=
  {| bio := bio s; avatar := avatar s; isLoading := v; error := error s;
     success := success s |}.

Definition setError (v : jsstring) (s : State) : State :=
  {| bio := bio s; avatar := avatar s; isLoading := isLoading s; error := v;
     success := success s |}.

Definition setSuccess (v : jsstring) (s : State) : State :=
  {| bio := bio s; avatar := avatar s; isLoading := isLoading s; error := error s;
     success := v |}.

(** The screen, the [user] state of the parent (the props [user] and
    [setUser]) and the ['user'] item of localStorage. *)
Record Page := {
  screen : World State;
  user : option User.User;
  stored_user : option User.User
}.

Definition on_screen (f : World State -> World State) (p : Page) : Page :=
  {| screen := f (screen p); user := user p; stored_user := stored_user p |}.

Definition catch (err : JsError) (p : Page) : Page :=
  p |> on_screen (update (setError NETWORK_ERROR))
    |> on_screen (console_error "Profile update error:" (LogError err)).

Definition handleSubmit (net : FetchResult unit) (p : Page) : Page :=
  let bio := bio (ui (screen p)) in
  let avatar := avatar (ui (screen p)) in
  let user := user p in
  let p :=
    p |> on_screen (update (setError []))
      |> on_screen (update (setSuccess []))
      |> on_screen (update (setIsLoading true))
      |> on_screen (fetch {| method := PUT;
                             url := lit "http://localhost:5000/api/profile";
                             body := Some [("bio"%string, bio);
                                           ("avatar"%string, avatar)] |}) in
  let p :=
    match net with
    | Rejected err => p |> catch err
    | Resolved false _ => p |> catch (Error (lit "Failed to update profile"))
    | Resolved true (inl err) => p |> catch err
    | Resolved true (inr (JsonSuccess _ _)) =>
        let p := p |> on_screen (update (setSuccess (lit "Profile updated successfully"))) in
        match user with
        | Some u =>
            let updatedUser :=
              {| User.username := User.username u; User.bio := bio;
                 User.avatar := avatar |} in
            {| screen := screen p; user := Some updatedUser;
               stored_user := Some updatedUser |}
        | None => p
        end
    | Resolved true (inr (JsonFailure m)) =>
        p |> on_screen (update (setError (or_default m (lit "Failed to update profile"))))
    end in
  p |> on_screen (update (setIsLoading false)).

End Profile.

(** ** Outcomes of a request *)

(** The server "responds success": the request resolves with an ok status
    and a body that parses with a truthy [success]. *)
Definition responds_success {P} (net : FetchResult P) : bool :=
  match net with
  | Resolved true (inr (JsonSuccess _ _)) => true
  | _ => false
  end.

(** The body parses with a truthy [success], whatever the status. *)
Definition body_success {P} (net : FetchResult P) : bool :=
  match net with
  | Resolved _ (inr (JsonSuccess _ _)) => true
  | _ => false
  end.

(** The request fails: no response, a status that is not ok, or (on an ok
    status) a body that does not parse. *)
Definition request_failed {P} (net : FetchResult P) : bool :=
  match net with
  | Rejected _ => true
  | Resolved false _ => true
  | Resolved true (inl _) => true
  | Resolved true (inr _) => false
  end.

Definition axios_success {P} (net : AxiosResult P) : bool :=
  match net with
  | AxiosResolved _ => true
  | AxiosRejected _ => false
  end.

(** ** Readings of a run of events *)

(** The entries a ChatRoom message event delivers. *)
Definition delivered (ev : ChatRoom.SocketEvent) : list ChatRoom.Message :=
  match ev with
  | ChatRoom.message_history data => data
  | ChatRoom.new_message data => [data]
  end.

(** The [typing] flag of the last event about [u], if there is one. *)
Definition last_typing (u : jsstring) (evs : list (jsstring * bool)) : option bool :=
  snd <$> last (filter (fun ev => ev.1 = u) evs).

(** The payload of a response that is a success. *)
Definition success_payload {P} (net : FetchResult P) : option P :=
  match net with
  | Resolved true (inr (JsonSuccess payload _)) => Some payload
  | _ => None
  end.

(** The body parsed and its [success] is falsy. *)
Definition body_refuses {P} (net : FetchResult P) : bool :=
  match net with
  | Resolved _ (inr (JsonFailure _)) => true
  | _ => false
  end.

(** ** How an action of the NotificationProvider fails *)

(** [run] does nothing without a user; with a user and no token it issues
    no request, logs the missing token and rejects with [default_message];
    and when its request is rejected it logs that, leaves the state as it
    is and rejects with the non-empty message of the server's answer, if
    there is one, and with [default_message] otherwise. *)
Definition fails_with (label : string) (default_message : jsstring) (request : Request)
    (run : option AuthContext.User -> option jsstring -> AxiosOutcome unit ->
           World NotificationContext.State ->
           World NotificationContext.State * option JsError) : Prop :=
  forall (user : AuthContext.User) (token : option jsstring) (net : AxiosOutcome unit)
         (error : Caught) (w : World NotificationContext.State),
    run None token net w = (w, None)
    /\ (truthy (default [] token) = false ->
        run (Some user) token net w
        = (w |> console_error label
                  (LogError (Error (lit "No authentication token found"))),
           Some (Error default_message)))
    /\ (truthy (default [] token) = true ->
        ui (run (Some user) token (AxiosFailed error) w).1 = ui w
        /\ sent (run (Some user) token (AxiosFailed error) w).1 = sent w ++ [request]
        /\ console (run (Some user) token (AxiosFailed error) w).1
           = console w ++ [(label, LogError (caught_error error))]
        /\ (run (Some user) token (AxiosFailed error) w).2
           = Some (Error (match response_message error with
                          | Some m => if decide (m = []) then default_message else m
                          | None => default_message
                          end))).

(** ** How a failed request is handled *)



(** ** Sample data *)

Module Sample.

Definition hello : ChatRoom.Message :=
  {| ChatRoom.username := lit "ann"; ChatRoom.message := lit "hello";
     ChatRoom.timestamp := lit "10:00" |}.

Definition app_state : App.State :=
  {| App.isAuthenticated := true;
     App.user := Some {| User.username := lit "ann"; User.bio := []; User.avatar := [] |};
     App.showLogin := true;
     App.activeTab := lit "notifications";
     App.notifications := [lit "bob sent you a friend request"];
     App.selectedFriend := None |}.

Definition blank : jsstring := lit "   ".

Definition login_blank : World Login.State :=
  mount {| Login.username := blank; Login.password := lit "secret";
           Login.error := None; Login.isLoading := false |}.

Definition register_blank : World Register.State :=
  mount {| Register.username := lit "ann"; Register.password := lit "secret";
           Register.confirmPassword := lit (String "009" (String "010" EmptyString));
           Register.error := None; Register.isLoading := false |}.

(** Everything filled in; the passwords differ and the username is short. *)
Definition register_mismatch : World Register.State :=
  mount {| Register.username := lit "al"; Register.password := lit "secret";
           Register.confirmPassword := lit "secret1";
           Register.error := None; Register.isLoading := false |}.

Definition server_down {P} : FetchResult P := Rejected (Error (lit "Failed to fetch")).

Definition bob : FriendsList.Friend :=
  {| FriendsList.username := lit "bob"; FriendsList.online := true;
     FriendsList.bio := []; FriendsList.avatar := [] |}.

Definition bob0 : FriendsList0.Friend :=
  {| FriendsList0.username := lit "bob"; FriendsList0.online := true;
     FriendsList0.bio := []; FriendsList0.avatar := [] |}.

Definition ann_props : FriendsList.Props :=
  {| FriendsList.props_username := lit "ann"; FriendsList.has_onFriendSelect := true;
     FriendsList.sidebarMode := false |}.

Definition ann_props0 : FriendsList0.Props :=
  {| FriendsList0.props_username := lit "ann"; FriendsList0.has_onFriendSelect := true;
     FriendsList0.sidebarMode := false |}.

(** ann's screen: bob is a friend, and [typed] is in the add-friend box. *)
Definition friends_screen (typed : jsstring) : World FriendsList.State :=
  mount {| FriendsList.friends := [bob]; FriendsList.newFriend := typed;
           FriendsList.error := []; FriendsList.success := [];
           FriendsList.isLoading := false; FriendsList.suggestions := [];
           FriendsList.targetUser := []; FriendsList.isConnected := None;
           FriendsList.path := [] |}.

Definition friends_screen0 (typed : jsstring) : World FriendsList0.State :=
  mount {| FriendsList0.friends := [bob0]; FriendsList0.newFriend := typed;
           FriendsList0.error := []; FriendsList0.success := [];
           FriendsList0.isLoading := false |}.

Definition all_down : FriendsList.Net :=
  {| FriendsList.net_own := server_down; FriendsList.net_friends := server_down;
     FriendsList.net_suggestions := server_down |}.

Definition login_ann : World Login.State :=
  mount {| Login.username := lit "ann"; Login.password := lit "secret";
           Login.error := None; Login.isLoading := false |}.

(** A 401 whose body carries the server's message. *)
Definition invalid_credentials : FetchResult User.User :=
  Resolved false (inr (JsonFailure (Some (lit "Invalid credentials")))).

Definition ann_auth : AuthContext.User :=
  {| AuthContext.id := lit "u1"; AuthContext.username := lit "ann";
     AuthContext.email := lit "ann@example.org"; AuthContext.profilePic := [] |}.


Definition carl : ChatContext.Friend.Friend :=
  {| ChatContext.Friend.id := lit "u2"; ChatContext.Friend.username := lit "carl";
     ChatContext.Friend.profilePic := lit "carl.png";
     ChatContext.Friend.status := ChatContext.offline |}.

Definition dora : ChatContext.Friend.Friend :=
  {| ChatContext.Friend.id := lit "u3"; ChatContext.Friend.username := lit "dora";
     ChatContext.Friend.profilePic := lit "dora.png";
     ChatContext.Friend.status := ChatContext.offline |}.

Definition notifications_screen : World Notifications.State :=
  mount {| Notifications.notifications := [lit "bob sent you a friend request"];
           Notifications.isLoading := false; Notifications.error := None |}.

Definition ann_chat : ChatRoomInput.Props :=
  {| ChatRoomInput.username := lit "ann"; ChatRoomInput.selectedFriend := ChatRoomInput.Null |}.

(** ann has typed "hi" with no room joined and no friend selected. *)
Definition no_target : ChatRoomInput.State :=
  {| ChatRoomInput.message := lit "hi"; ChatRoomInput.messages := [hello];
     ChatRoomInput.currentRoom := []; ChatRoomInput.typingUsers := ∅;
     ChatRoomInput.isTyping := true; ChatRoomInput.directChatMode := false;
     ChatRoomInput.typingTimeout := None |}.

(** ann is in the room General and has typed nothing yet. *)
Definition idle_in_general : ChatRoomInput.State :=
  {| ChatRoomInput.message := []; ChatRoomInput.messages := [];
     ChatRoomInput.currentRoom := lit "General"; ChatRoomInput.typingUsers := ∅;
     ChatRoomInput.isTyping := false; ChatRoomInput.directChatMode := false;
     ChatRoomInput.typingTimeout := None |}.


Definition created : FetchResult unit := Resolved true (inr (JsonSuccess () None)).

Definition eve : FriendsList.Friend :=
  {| FriendsList.username := lit "eve"; FriendsList.online := false;
     FriendsList.bio := []; FriendsList.avatar := [] |}.

(** The POST succeeds, the reload of the friends gives bob and eve, the
    reload of the suggestions fails. *)
Definition added_eve : FriendsList.Net :=
  {| FriendsList.net_own := Resolved true (inr (JsonSuccess () None));
     FriendsList.net_friends := Resolved true (inr (JsonSuccess [bob; eve] None));
     FriendsList.net_suggestions := server_down |}.

Definition ann : User.User :=
  {| User.username := lit "ann"; User.bio := lit "hi"; User.avatar := [] |}.

(** ann is logged in, on the notifications tab, with bob selected. *)
Definition ann_session : AppSession.Session :=
  {| AppSession.app :=
       mount {| App.isAuthenticated := true; App.user := Some ann;
                App.showLogin := true; App.activeTab := lit "notifications";
                App.notifications := [lit "bob sent you a friend request"];
                App.selectedFriend := Some (lit "bob") |};
     AppSession.stored_user := Some ann;
     AppSession.sockets :=
       {| Socket.socket := Some (0%nat, true); Socket.open_sockets := [0%nat];
          Socket.next := 1%nat |} |}.

(** ann's provider, chatting with carl; no messages loaded. *)
Definition chat_with_carl : World ChatContext.State :=
  mount {| ChatContext.friends := [carl; dora]; ChatContext.friendRequests := [];
           ChatContext.messages := ∅; ChatContext.currentChat := Some carl;
           ChatContext.loadingFriends := false; ChatContext.loadingMessages := false |}.

(** The message the server makes of ann's "hi" to carl. *)
Definition hi_carl : ChatContext.Message.Message :=
  {| ChatContext.Message.id := lit "m1"; ChatContext.Message.senderId := lit "u1";
     ChatContext.Message.receiverId := lit "u2"; ChatContext.Message.content := lit "hi";
     ChatContext.Message.timestamp := lit "10:01" |}.

(** dora asked ann twice. *)
Definition asked_twice : World ChatContext.State :=
  mount {| ChatContext.friends := [carl; dora]; ChatContext.friendRequests := [dora; dora];
           ChatContext.messages := ∅; ChatContext.currentChat := None;
           ChatContext.loadingFriends := false; ChatContext.loadingMessages := false |}.

Definition request_from_bob : NotificationContext.Notification :=
  {| NotificationContext.id := lit "n1";
     NotificationContext.type := NotificationContext.friend_request;
     NotificationContext.senderId := Some (lit "u9");
     NotificationContext.senderName := Some (lit "bob");
     NotificationContext.content := lit "bob sent you a friend request";
     NotificationContext.read := false;
     NotificationContext.timestamp := lit "09:00" |}.

Definition welcome : NotificationContext.Notification :=
  {| NotificationContext.id := lit "n2";
     NotificationContext.type := NotificationContext.system;
     NotificationContext.senderId := None;
     NotificationContext.senderName := None;
     NotificationContext.content := lit "Welcome";
     NotificationContext.read := false;
     NotificationContext.timestamp := lit "08:00" |}.

Definition two_unread : World NotificationContext.State :=
  mount {| NotificationContext.notifications := [request_from_bob; welcome];
           NotificationContext.loading := false |}.

Definition a_token : option jsstring := Some (lit "eyJhbGciOi").

(** The server answers 404 with a message of its own. *)
Definition not_found : Caught :=
  {| caught_error := Error (lit "Request failed with status code 404");
     response := Some {| status := 404;
                         data_message := Some (lit "Notification not found") |} |}.

Definition logged_out : AuthProvider.Auth :=
  {| AuthProvider.provider :=
       mount {| AuthProvider.user := None; AuthProvider.loading := true |};
     AuthProvider.token := None |}.

Definition granted_ann : AuthProvider.Granted :=
  {| AuthProvider.granted_token := lit "eyJhbGciOi"; AuthProvider.granted_user := ann_auth |}.

Definition wrong_password : Caught :=
  {| caught_error := Error (lit "Request failed with status code 401");
     response := Some {| status := 401; data_message := Some (lit "Wrong password") |} |}.

(** ann's profile page, with a new bio typed in. *)
Definition ann_profile : Profile.Page :=
  {| Profile.screen :=
       mount {| Profile.bio := lit "hello there"; Profile.avatar := lit "ann.png";
                Profile.isLoading := false; Profile.error := []; Profile.success := [] |};
     Profile.user := Some ann;
     Profile.stored_user := Some ann |}.

(** The DELETE succeeds; the reload of the suggestions after it fails. *)
Definition delete_ok : FriendsList.Net :=
  {| FriendsList.net_own := Resolved true (inr (JsonSuccess () None));
     FriendsList.net_friends := server_down;
     FriendsList.net_suggestions := server_down |}.

(** ann has typed eve and submitted, and the POST was answered with
    success: the reloads are in flight and the screen still shows bob alone. *)
Definition eve_added_reloading : World FriendsList.State :=
  FriendsList.handleAddFriend_reloading (friends_screen (lit "eve")).

(** She clicks Remove on bob and confirms. *)
Definition remove_bob_clicked : World FriendsList.State * option FriendsList.Removing :=
  FriendsList.handleRemoveFriend true (lit "bob") eve_added_reloading.

Definition bob_closure : FriendsList.Removing :=
  {| FriendsList.removing := lit "bob"; FriendsList.closed_friends := [bob];
     FriendsList.closed_newFriend := [] |}.

(** The reload of the friends lands: the server's list has eve now. *)
Definition reload_landed : World FriendsList.State :=
  FriendsList.fetchFriends_answered (Resolved true (inr (JsonSuccess [bob; eve] None)))
    (fst remove_bob_clicked).

(** Then the DELETE is answered: success. *)
Definition delete_answered : World FriendsList.State :=
  FriendsList.handleRemoveFriend_answered ann_props bob_closure delete_ok reload_landed.

End Sample.

(** * Properties *)

(** ** The model on small inputs *)

Example trim_both_ends : trim (lit "  ann bee  ") = lit "ann bee".
Proof. reflexivity. Qed.

Example trim_blank : trim Sample.blank = [].
Proof. reflexivity. Qed.

Example slice_last_two : slice (-2) [1; 2; 3] = [2; 3].
Proof. reflexivity. Qed.

Example slice_short_array : slice (-5) [1; 2; 3] = [1; 2; 3].
Proof. reflexivity. Qed.

Example ChatRoom_250_messages :
  length (ChatRoom.run (replicate 250 (ChatRoom.new_message Sample.hello))) = 100%nat.
Proof. vm_compute. reflexivity. Qed.

Example carl_comes_online :
  ChatContext.on_friend_status (lit "u2") ChatContext.online [Sample.carl; Sample.dora]
  = [ {| ChatContext.Friend.id := lit "u2"; ChatContext.Friend.username := lit "carl";
         ChatContext.Friend.profilePic := lit "carl.png";
         ChatContext.Friend.status := ChatContext.online |};
      Sample.dora ].
Proof. reflexivity. Qed.

Example remove_bob :
  FriendsList.friends
    (ui (FriendsList.handleRemoveFriend_answered Sample.ann_props Sample.bob_closure
           Sample.delete_ok (fst Sample.remove_bob_clicked)))
  = [].
Proof. reflexivity. Qed.

(** ** Arrays and strings *)

Lemma some_false {A} (p : A -> bool) (arr : list A) :
  (forall x, x ∈ arr -> p x = false) -> some p arr = false.
Proof.
  intros H. unfold some. induction arr as [|x arr IH]; [reflexivity|]. simpl.
  rewrite (H x) by apply list_elem_of_here. simpl.
  apply IH. intros y Hy. apply H. by apply list_elem_of_further.
Qed.

Lemma slice_negative {A} (n : nat) (arr : list A) :
  slice (- Z.of_nat (S n)) arr = drop (length arr - S n) arr.
Proof.
  unfold slice.
  destruct (Z.ltb_spec (- Z.of_nat (S n)) 0) as [_|H]; [|lia].
  f_equal. lia.
Qed.

Lemma slice_MAX_MESSAGES {A} (arr : list A) :
  slice (- ChatRoom.MAX_MESSAGES) arr = drop (length arr - 100) arr.
Proof. exact (slice_negative 99 arr). Qed.

Lemma length_slice_MAX_MESSAGES {A} (arr : list A) :
  length (slice (- ChatRoom.MAX_MESSAGES) arr) = (length arr `min` 100)%nat.
Proof. rewrite slice_MAX_MESSAGES, length_drop. lia. Qed.

Lemma slice_MAX_MESSAGES_suffix {A} (arr : list A) :
  slice (- ChatRoom.MAX_MESSAGES) arr `suffix_of` arr.
Proof. rewrite slice_MAX_MESSAGES. apply suffix_drop. Qed.

(** Truncating, appending and truncating again is truncating once. *)
Lemma slice_MAX_MESSAGES_app {A} (arr more : list A) :
  slice (- ChatRoom.MAX_MESSAGES) (slice (- ChatRoom.MAX_MESSAGES) arr ++ more)
  = slice (- ChatRoom.MAX_MESSAGES) (arr ++ more).
Proof.
  rewrite !slice_MAX_MESSAGES.
  rewrite <- (drop_app_le arr more (length arr - 100)) by lia.
  rewrite drop_drop. f_equal.
  rewrite length_drop, !length_app. lia.
Qed.

(** The two most recent entries survive the truncation. *)
Lemma slice_MAX_MESSAGES_snoc2 {A} (arr : list A) (x y : A) :
  slice (- ChatRoom.MAX_MESSAGES) (arr ++ [x; y])
  = drop (length arr - 98) arr ++ [x; y].
Proof.
  rewrite slice_MAX_MESSAGES, length_app. simpl length.
  rewrite drop_app_le by lia. f_equal. f_equal. lia.
Qed.

(** ** ChatRoom: the cap on the message list *)

(** The cap is an invariant of every run of socket events. *)
Lemma ChatRoom_on_event_length (ev : ChatRoom.SocketEvent) (prev : list ChatRoom.Message) :
  (length (ChatRoom.on_event ev prev) <= 100)%nat.
Proof.
  destruct ev; simpl;
    unfold ChatRoom.on_message_history, ChatRoom.on_new_message;
    rewrite length_slice_MAX_MESSAGES; lia.
Qed.

Lemma ChatRoom_run_snoc (evs : list ChatRoom.SocketEvent) (ev : ChatRoom.SocketEvent) :
  ChatRoom.run (evs ++ [ev]) = ChatRoom.on_event ev (ChatRoom.run evs).
Proof. unfold ChatRoom.run. by rewrite foldl_app. Qed.

Lemma ChatRoom_run_length (evs : list ChatRoom.SocketEvent) :
  (length (ChatRoom.run evs) <= 100)%nat.
Proof.
  induction evs as [|ev evs _] using rev_ind.
  - simpl. lia.
  - rewrite ChatRoom_run_snoc. apply ChatRoom_on_event_length.
Qed.

(** C1: from every [messages] state of at most 100 entries, the state after
    a [message_history] batch and the state after a [new_message] have at
    most [MAX_MESSAGES] = 100 entries, and they are the most recent ones: a
    suffix of the old list followed by what came in, as long as the cap
    allows. *)
Theorem ChatRoom_messages_capped
    (prev batch : list ChatRoom.Message) (data : ChatRoom.Message) :
  (length prev <= 100)%nat ->
  (Z.of_nat (length (ChatRoom.on_message_history batch prev)) <= ChatRoom.MAX_MESSAGES
   /\ ChatRoom.on_message_history batch prev `suffix_of` prev ++ batch
   /\ length (ChatRoom.on_message_history batch prev)
      = (length (prev ++ batch) `min` 100)%nat)
  /\ (Z.of_nat (length (ChatRoom.on_new_message data prev)) <= ChatRoom.MAX_MESSAGES
      /\ ChatRoom.on_new_message data prev `suffix_of` prev ++ [data]
      /\ length (ChatRoom.on_new_message data prev)
         = (length (prev ++ [data]) `min` 100)%nat).
Proof.
  intros _. unfold ChatRoom.on_message_history, ChatRoom.on_new_message.
  split; (split; [|split]);
    auto using slice_MAX_MESSAGES_suffix, length_slice_MAX_MESSAGES;
    rewrite length_slice_MAX_MESSAGES; unfold ChatRoom.MAX_MESSAGES; lia.
Qed.

Lemma ChatRoom_messages_capped_witness :
  (Z.of_nat (length (ChatRoom.on_message_history (replicate 150 Sample.hello) [Sample.hello]))
     <= ChatRoom.MAX_MESSAGES
   /\ ChatRoom.on_message_history (replicate 150 Sample.hello) [Sample.hello]
        `suffix_of` [Sample.hello] ++ replicate 150 Sample.hello
   /\ length (ChatRoom.on_message_history (replicate 150 Sample.hello) [Sample.hello])
      = (length ([Sample.hello] ++ replicate 150 Sample.hello) `min` 100)%nat)
  /\ (Z.of_nat (length (ChatRoom.on_new_message Sample.hello [Sample.hello])) <= ChatRoom.MAX_MESSAGES
      /\ ChatRoom.on_new_message Sample.hello [Sample.hello] `suffix_of` [Sample.hello] ++ [Sample.hello]
      /\ length (ChatRoom.on_new_message Sample.hello [Sample.hello])
         = (length ([Sample.hello] ++ [Sample.hello]) `min` 100)%nat).
Proof.
  apply (ChatRoom_messages_capped [Sample.hello] (replicate 150 Sample.hello) Sample.hello).
  simpl. lia.
Defined.

(** ** No deduplication of real-time messages *)

Lemma ChatContext_on_message_lookup (user : option AuthContext.User)
    (message : ChatContext.Message.Message)
    (prev : gmap jsstring (list ChatContext.Message.Message)) :
  ChatContext.on_message user message prev !! ChatContext.chatId user message
  = Some (default [] (prev !! ChatContext.chatId user message) ++ [message]).
Proof. unfold ChatContext.on_message. apply lookup_insert_eq. Qed.

(** C5: neither handler looks for the message among those it holds.  In
    ChatRoom the message received is the last entry afterwards, whatever the
    list held, and a second delivery leaves the list ending in two copies
    (the truncation to 100 works on the older end).  In ChatContext the chat
    the message belongs to gains the message at its end, and gains it twice
    on a second delivery. *)
Theorem no_deduplication
    (prev : list ChatRoom.Message) (data : ChatRoom.Message)
    (user : option AuthContext.User) (message : ChatContext.Message.Message)
    (chats : gmap jsstring (list ChatContext.Message.Message)) :
  last (ChatRoom.on_new_message data prev) = Some data
  /\ ChatRoom.on_new_message data (ChatRoom.on_new_message data prev)
     = slice (- ChatRoom.MAX_MESSAGES) (prev ++ [data; data])
  /\ ChatRoom.on_new_message data (ChatRoom.on_new_message data prev)
     = drop (length prev - 98) prev ++ [data; data]
  /\ ChatContext.on_message user message chats !! ChatContext.chatId user message
     = Some (default [] (chats !! ChatContext.chatId user message) ++ [message])
  /\ ChatContext.on_message user message (ChatContext.on_message user message chats)
       !! ChatContext.chatId user message
     = Some (default [] (chats !! ChatContext.chatId user message) ++ [message; message]).
Proof.
  assert (Htwice : ChatRoom.on_new_message data (ChatRoom.on_new_message data prev)
                   = slice (- ChatRoom.MAX_MESSAGES) (prev ++ [data; data])).
  { unfold ChatRoom.on_new_message.
    rewrite slice_MAX_MESSAGES_app, <- app_assoc. reflexivity. }
  split; [|split; [|split; [|split]]].
  - unfold ChatRoom.on_new_message. rewrite slice_MAX_MESSAGES.
    rewrite length_app. simpl length.
    rewrite drop_app_le by lia. apply last_snoc.
  - exact Htwice.
  - rewrite Htwice. apply slice_MAX_MESSAGES_snoc2.
  - apply ChatContext_on_message_lookup.
  - rewrite ChatContext_on_message_lookup, ChatContext_on_message_lookup.
    simpl. rewrite <- app_assoc. reflexivity.
Qed.

(** ** ChatContext: the frame of a [friend_status] event *)

Lemma str_eq_true (a b : jsstring) : str_eq a b = true <-> a = b.
Proof. unfold str_eq. apply bool_decide_eq_true. Qed.

Lemma str_eq_false (a b : jsstring) : str_eq a b = false <-> a <> b.
Proof. unfold str_eq. apply bool_decide_eq_false. Qed.

Lemma str_eq_refl (a : jsstring) : str_eq a a = true.
Proof. by apply str_eq_true. Qed.

Lemma array_map_lookup {A B} (f : A -> B) (arr : list A) (i : nat) :
  array_map f arr !! i = f <$> arr !! i.
Proof. unfold array_map. apply (list_lookup_fmap f arr i). Qed.

Lemma array_map_id_on {A} (f : A -> A) (arr : list A) :
  (forall x, x ∈ arr -> f x = x) -> array_map f arr = arr.
Proof.
  unfold array_map. induction arr as [|x arr IH]; intros Hf; simpl.
  - reflexivity.
  - rewrite Hf by apply list_elem_of_here.
    rewrite IH; [reflexivity|].
    intros y Hy. apply Hf. by apply list_elem_of_further.
Qed.

(** C6: a [friend_status] event keeps the length and the order of the
    friends list; the record at each position keeps its id, username and
    profilePic; a record whose id is not the event's userId is unchanged, one
    whose id matches gets the event's status; and the list is unchanged when
    no friend has that id. *)
Theorem friend_status_frame
    (userId : jsstring) (status : ChatContext.Status)
    (friends : list ChatContext.Friend.Friend) :
  length (ChatContext.on_friend_status userId status friends) = length friends
  /\ (forall i friend,
        friends !! i = Some friend ->
        exists friend',
          ChatContext.on_friend_status userId status friends !! i = Some friend'
          /\ ChatContext.Friend.id friend' = ChatContext.Friend.id friend
          /\ ChatContext.Friend.username friend' = ChatContext.Friend.username friend
          /\ ChatContext.Friend.profilePic friend' = ChatContext.Friend.profilePic friend
          /\ (ChatContext.Friend.id friend <> userId -> friend' = friend)
          /\ (ChatContext.Friend.id friend = userId ->
              ChatContext.Friend.status friend' = status))
  /\ ((forall friend, friend ∈ friends -> ChatContext.Friend.id friend <> userId) ->
      ChatContext.on_friend_status userId status friends = friends).
Proof.
  unfold ChatContext.on_friend_status. split; [|split].
  - unfold array_map. apply length_map.
  - intros i friend Hi. rewrite array_map_lookup, Hi. simpl.
    destruct (str_eq (ChatContext.Friend.id friend) userId) eqn:Hid.
    + apply str_eq_true in Hid. eexists. split; [reflexivity|]. simpl.
      split_and!; [reflexivity..|congruence|reflexivity].
    + apply str_eq_false in Hid. exists friend.
      split_and!; [reflexivity..|congruence].
  - intros Hnone. apply array_map_id_on. intros friend Hin.
    apply Hnone, str_eq_false in Hin. by rewrite Hin.
Qed.

(** ** Removing a friend *)

Lemma array_filter_sublist {A} (p : A -> bool) (arr : list A) :
  array_filter p arr `sublist_of` arr.
Proof.
  induction arr as [|x arr IH]; simpl.
  - constructor.
  - destruct (p x); by constructor.
Qed.

Lemma array_filter_elem_of {A} (p : A -> bool) (arr : list A) (x : A) :
  x ∈ array_filter p arr <-> x ∈ arr /\ p x = true.
Proof.
  induction arr as [|y arr IH]; simpl.
  - rewrite elem_of_nil. tauto.
  - destruct (p y) eqn:Hy; rewrite ?elem_of_cons, IH.
    + split; [intros [->|[Hin Hx]]|intros [[->|Hin] Hx]]; auto.
    + split; [tauto|]. intros [[->|Hin] Hx]; [congruence|tauto].
Qed.

(** Without the user's confirmation nothing happens. *)
Lemma FriendsList_remove_cancelled (friendUsername : jsstring) (w : World FriendsList.State) :
  FriendsList.handleRemoveFriend false friendUsername w = (w, None).
Proof. reflexivity. Qed.

Lemma FriendsList_fetchSuggestions_friends (net : FetchResult (list FriendsList.Friend))
    (w : World FriendsList.State) :
  FriendsList.friends (ui (FriendsList.fetchSuggestions net w)) = FriendsList.friends (ui w).
Proof. destruct net as [e|[] [e|[l m|m]]]; reflexivity. Qed.

(** What the answer to the DELETE does to the list, in the FriendsList
    screen: on success the list becomes the list the chain closed over at
    the click, filtered, whatever the list is by then; otherwise the list of
    that moment stays. *)
Lemma FriendsList_remove_answered (props : FriendsList.Props) (r : FriendsList.Removing)
    (net : FriendsList.Net) (w : World FriendsList.State) :
  FriendsList.friends (ui (FriendsList.handleRemoveFriend_answered props r net w))
  = if responds_success (FriendsList.net_own net)
    then array_filter
           (fun friend =>
              negb (str_eq (FriendsList.username friend) (FriendsList.removing r)))
           (FriendsList.closed_friends r)
    else FriendsList.friends (ui w).
Proof.
  destruct net as [own nf ns]. unfold FriendsList.handleRemoveFriend_answered.
  destruct own as [e|[] [e|[[] m|m]]]; simpl; try reflexivity.
  destruct (FriendsList.has_onFriendSelect props
            && str_eq (FriendsList.removing r) (FriendsList.closed_newFriend r));
    simpl; apply FriendsList_fetchSuggestions_friends.
Qed.

Lemma FriendsList0_remove_answered (props : FriendsList0.Props) (r : FriendsList0.Removing)
    (net : FetchResult unit) (w : World FriendsList0.State) :
  FriendsList0.friends (ui (FriendsList0.handleRemoveFriend_answered props r net w))
  = if responds_success net
    then array_filter
           (fun friend =>
              negb (str_eq (FriendsList0.username friend) (FriendsList0.removing r)))
           (FriendsList0.closed_friends r)
    else FriendsList0.friends (ui w).
Proof.
  unfold FriendsList0.handleRemoveFriend_answered.
  destruct net as [e|[] [e|[[] m|m]]]; simpl; try reflexivity.
  destruct (FriendsList0.has_onFriendSelect props
            && str_eq (FriendsList0.removing r) (FriendsList0.closed_newFriend r));
    reflexivity.
Qed.

(** The state [handleAddFriend_reloading] stops in is a state of an accepted
    add: the requests are those of [handleAddFriend], and the friends
    [handleAddFriend] ends with are what the answer to the reload makes of
    it. *)
Lemma FriendsList_add_reloading (props : FriendsList.Props) (net : FriendsList.Net)
    (w : World FriendsList.State) :
  trim (FriendsList.newFriend (ui w)) <> [] ->
  FriendsList.newFriend (ui w) <> FriendsList.props_username props ->
  (forall friend, friend ∈ FriendsList.friends (ui w) ->
                  FriendsList.username friend <> FriendsList.newFriend (ui w)) ->
  responds_success (FriendsList.net_own net) = true ->
  sent (FriendsList.handleAddFriend props net w)
  = sent (FriendsList.handleAddFriend_reloading w)
  /\ FriendsList.friends (ui (FriendsList.handleAddFriend props net w))
     = FriendsList.friends
         (ui (FriendsList.fetchFriends_answered (FriendsList.net_friends net)
                (FriendsList.handleAddFriend_reloading w))).
Proof.
  intros Hname Hself Hnew Hown. unfold FriendsList.handleAddFriend.
  rewrite some_false by (intros friend Hin; by apply str_eq_false, Hnew).
  apply str_eq_false in Hself. rewrite Hself.
  destruct (trim (FriendsList.newFriend (ui w))) as [|c rest] eqn:Htrim; [congruence|].
  change (negb (truthy (c :: rest))) with false. cbv iota.
  destruct net as [own nf ns]. simpl in Hown |- *.
  destruct own as [e|[] [e|[[] m|m]]]; try discriminate.
  split.
  - destruct nf as [e|[] [e|[l m'|m']]]; destruct ns as [e'|[] [e'|[l' m''|m'']]];
      simpl; rewrite <- ?app_assoc; reflexivity.
  - destruct nf as [e|[] [e|[l m'|m']]]; destruct ns as [e'|[] [e'|[l' m''|m'']]];
      reflexivity.
Qed.

(** C7: the FriendsList screen does not do what the claim says when the
    list changes between the click and the answer.  ann adds eve; while the
    reload of the friends that follows is in flight ([isLoading] is false
    again, so Remove is enabled) she clicks Remove on bob; the reload lands
    with bob and eve; the DELETE is then answered with success.  The
    previous state, filtered, is eve alone; the screen shows no friend at
    all: the handler writes [friends.filter(...)] of the list it closed
    over at the click.
    In general the answer writes the closed-over list, filtered, on success
    and leaves the list alone otherwise (both variants of the screen), which
    is the claim's update when nothing landed in between; [removeFriend] of
    ChatContext filters the list of the moment ([prev => prev.filter(...)]),
    as the claim says. *)
Theorem remove_friend_stale_list :
  (FriendsList.isLoading (ui Sample.eve_added_reloading) = false
   /\ FriendsList.friends (ui Sample.eve_added_reloading) = [Sample.bob]
   /\ snd Sample.remove_bob_clicked = Some Sample.bob_closure
   /\ sent (fst Sample.remove_bob_clicked)
      = [{| method := POST; url := FriendsList.friends_url;
            body := Some [("username"%string, lit "eve")] |};
         {| method := GET; url := FriendsList.friends_url; body := None |};
         {| method := GET; url := lit "http://localhost:5000/api/friends/suggestions";
            body := None |};
         {| method := DELETE; url := FriendsList.friends_url;
            body := Some [("username"%string, lit "bob")] |}]
   /\ FriendsList.friends (ui Sample.reload_landed) = [Sample.bob; Sample.eve]
   /\ array_filter (fun friend => negb (str_eq (FriendsList.username friend) (lit "bob")))
        (FriendsList.friends (ui Sample.reload_landed))
      = [Sample.eve]
   /\ FriendsList.friends (ui Sample.delete_answered) = [])
  /\ (forall props friendUsername net w r,
        snd (FriendsList.handleRemoveFriend true friendUsername w) = Some r ->
        FriendsList.friends
          (ui (FriendsList.handleRemoveFriend_answered props r net
                 (fst (FriendsList.handleRemoveFriend true friendUsername w))))
        = if responds_success (FriendsList.net_own net)
          then array_filter
                 (fun friend => negb (str_eq (FriendsList.username friend) friendUsername))
                 (FriendsList.friends (ui w))
          else FriendsList.friends (ui w))
  /\ (forall props0 friendUsername net0 w0 r,
        snd (FriendsList0.handleRemoveFriend true friendUsername w0) = Some r ->
        FriendsList0.friends
          (ui (FriendsList0.handleRemoveFriend_answered props0 r net0
                 (fst (FriendsList0.handleRemoveFriend true friendUsername w0))))
        = if responds_success net0
          then array_filter
                 (fun friend => negb (str_eq (FriendsList0.username friend) friendUsername))
                 (FriendsList0.friends (ui w0))
          else FriendsList0.friends (ui w0))
  /\ (forall user userId anet wc,
        sent (fst (ChatContext.removeFriend (Some user) userId anet wc))
        = sent wc ++
          [{| method := DELETE; url := lit "http://localhost:5000/api/friends/" ++ userId;
              body := None |}]
        /\ ChatContext.friends (ui (fst (ChatContext.removeFriend (Some user) userId anet wc)))
           = if axios_success anet
             then array_filter
                    (fun friend => negb (str_eq (ChatContext.Friend.id friend) userId))
                    (ChatContext.friends (ui wc))
             else ChatContext.friends (ui wc)).
Proof.
  split_and!.
  - reflexivity.
  - reflexivity.
  - reflexivity.
  - reflexivity.
  - reflexivity.
  - reflexivity.
  - reflexivity.
  - intros props friendUsername net w r [= <-].
    rewrite FriendsList_remove_answered. reflexivity.
  - intros props0 friendUsername net0 w0 r [= <-].
    rewrite FriendsList0_remove_answered. reflexivity.
  - intros user userId anet wc. unfold ChatContext.removeFriend.
    destruct anet as [e|[]]; simpl; [split; reflexivity|].
    destruct (ChatContext.currentChat (ui wc)) as [c|]; [|split; reflexivity].
    destruct (str_eq (ChatContext.Friend.id c) userId); split; reflexivity.
Qed.

(** ** Clearing notifications *)

(** C8: clearing notifications empties the displayed list.  Each
    [clearNotifications] issues one DELETE to /api/notifications.  In the
    two Notifications screens, which display the list, the list becomes
    empty when the server responds success (an ok status and a body with a
    truthy [success]) and is unchanged on every other outcome.  The
    [clearNotifications] of App.tsx, which no component calls, does not
    look at the status: its list becomes empty when the body parses with a
    truthy [success] and is unchanged otherwise, which is the same on every
    outcome but a status that is not ok whose body says [success]. *)
Theorem clear_notifications_empties
    (net : FetchResult unit) (w : World Notifications.State)
    (w0 : World Notifications0.State) (wa : World App.State) :
  (sent (Notifications.clearNotifications net w)
   = sent w ++ [{| method := DELETE; url := Notifications.notifications_url; body := None |}]
   /\ Notifications.notifications (ui (Notifications.clearNotifications net w))
      = (if responds_success net then [] else Notifications.notifications (ui w)))
  /\ (sent (Notifications0.clearNotifications net w0)
      = sent w0 ++
        [{| method := DELETE; url := Notifications0.notifications_url; body := None |}]
      /\ Notifications0.notifications (ui (Notifications0.clearNotifications net w0))
         = (if responds_success net then [] else Notifications0.notifications (ui w0)))
  /\ (sent (App.clearNotifications net wa)
      = sent wa ++
        [{| method := DELETE; url := lit "http://localhost:5000/api/notifications";
            body := None |}]
      /\ App.notifications (ui (App.clearNotifications net wa))
         = (if body_success net then [] else App.notifications (ui wa))
      /\ (body_success net = responds_success net
          \/ exists payload message, net = Resolved false (inr (JsonSuccess payload message)))).
Proof.
  split_and!; try (destruct net as [e|[] [e|[[] m|m]]]; reflexivity).
  destruct net as [e|[] [e|[[] m|m]]]; try (left; reflexivity).
  right. by exists (), m.
Qed.

Lemma clear_notifications_empties_witness :
  Notifications.notifications
    (ui (Notifications.clearNotifications Sample.created Sample.notifications_screen)) = []
  /\ Notifications.notifications
       (ui (Notifications.clearNotifications Sample.server_down Sample.notifications_screen))
     = [lit "bob sent you a friend request"]
  /\ App.notifications (ui (App.clearNotifications Sample.created (mount Sample.app_state)))
     = [].
Proof.
  split_and!.
  - exact (proj2 (proj1 (clear_notifications_empties Sample.created
                           Sample.notifications_screen
                           (mount {| Notifications0.notifications := [];
                                     Notifications0.isLoading := false |})
                           (mount Sample.app_state)))).
  - exact (proj2 (proj1 (clear_notifications_empties Sample.server_down
                           Sample.notifications_screen
                           (mount {| Notifications0.notifications := [];
                                     Notifications0.isLoading := false |})
                           (mount Sample.app_state)))).
  - exact (proj1 (proj2 (proj2 (proj2 (clear_notifications_empties Sample.created
                                         Sample.notifications_screen
                                         (mount {| Notifications0.notifications := [];
                                                   Notifications0.isLoading := false |})
                                         (mount Sample.app_state)))))).
Defined.

(** ** Login and Register: what is checked before the request *)

Lemma blank_falsy (s : jsstring) : trim s = [] -> negb (truthy (trim s)) = true.
Proof. intros ->. reflexivity. Qed.

Lemma not_blank_truthy (s : jsstring) : trim s <> [] -> negb (truthy (trim s)) = false.
Proof. destruct (trim s); [congruence|reflexivity]. Qed.

(** C4: with a username or a password that trims to the empty string,
    Login's [handleSubmit] sets the error and does nothing else: no request
    is issued.  Register's [handleSubmit] does the same, with its own
    message, when the username, the password or the confirmation trims to
    the empty string. *)
Theorem empty_credentials_blocked
    (net : FetchResult User.User) (w : World Login.State)
    (netr : FetchResult unit) (wr : World Register.State) :
  trim (Login.username (ui w)) = [] \/ trim (Login.password (ui w)) = [] ->
  trim (Register.username (ui wr)) = []
    \/ trim (Register.password (ui wr)) = []
    \/ trim (Register.confirmPassword (ui wr)) = [] ->
  (Login.handleSubmit net w
   = update (Login.setError (Some (lit "Username and password are required"))) w
   /\ Login.error (ui (Login.handleSubmit net w))
      = Some (lit "Username and password are required")
   /\ sent (Login.handleSubmit net w) = sent w)
  /\ (Register.handleSubmit netr wr
      = update (Register.setError (Some (lit "All fields are required"))) wr
      /\ Register.error (ui (Register.handleSubmit netr wr))
         = Some (lit "All fields are required")
      /\ sent (Register.handleSubmit netr wr) = sent wr).
Proof.
  intros Hl Hr.
  assert (El : Login.handleSubmit net w
               = update (Login.setError (Some (lit "Username and password are required"))) w).
  { unfold Login.handleSubmit.
    destruct Hl as [H|H]; rewrite (blank_falsy _ H), ?orb_true_r; reflexivity. }
  assert (Er : Register.handleSubmit netr wr
               = update (Register.setError (Some (lit "All fields are required"))) wr).
  { unfold Register.handleSubmit.
    destruct Hr as [H|[H|H]]; rewrite (blank_falsy _ H), ?orb_true_r; reflexivity. }
  rewrite El, Er. split_and!; reflexivity.
Qed.

Lemma empty_credentials_blocked_witness :
  (Login.handleSubmit Sample.server_down Sample.login_blank
   = update (Login.setError (Some (lit "Username and password are required")))
       Sample.login_blank
   /\ Login.error (ui (Login.handleSubmit Sample.server_down Sample.login_blank))
      = Some (lit "Username and password are required")
   /\ sent (Login.handleSubmit Sample.server_down Sample.login_blank)
      = sent Sample.login_blank)
  /\ (Register.handleSubmit Sample.server_down Sample.register_blank
      = update (Register.setError (Some (lit "All fields are required")))
          Sample.register_blank
      /\ Register.error (ui (Register.handleSubmit Sample.server_down Sample.register_blank))
         = Some (lit "All fields are required")
      /\ sent (Register.handleSubmit Sample.server_down Sample.register_blank)
         = sent Sample.register_blank).
Proof.
  apply (empty_credentials_blocked
           Sample.server_down Sample.login_blank Sample.server_down Sample.register_blank).
  - left. reflexivity.
  - right. right. reflexivity.
Defined.

(** C9: with the three fields filled in, Register's [handleSubmit] checks,
    in this order, that the two passwords are the same string, that the
    username has at least 3 code units and that the password has at least
    6.  The first check that fails decides the error, and no request is
    issued. *)
Theorem register_validation_order (net : FetchResult unit) (w : World Register.State) :
  trim (Register.username (ui w)) <> [] ->
  trim (Register.password (ui w)) <> [] ->
  trim (Register.confirmPassword (ui w)) <> [] ->
  Register.password (ui w) <> Register.confirmPassword (ui w)
    \/ (length (Register.username (ui w)) < 3)%nat
    \/ (length (Register.password (ui w)) < 6)%nat ->
  Register.error (ui (Register.handleSubmit net w))
  = Some (if decide (Register.password (ui w) <> Register.confirmPassword (ui w))
          then lit "Passwords do not match"
          else if decide (length (Register.username (ui w)) < 3)%nat
          then lit "Username must be at least 3 characters"
          else lit "Password must be at least 6 characters")
  /\ sent (Register.handleSubmit net w) = sent w
  /\ calls (Register.handleSubmit net w) = calls w.
Proof.
  intros Hu Hp Hc Hbad. unfold Register.handleSubmit.
  rewrite (not_blank_truthy _ Hu), (not_blank_truthy _ Hp), (not_blank_truthy _ Hc).
  simpl orb. cbv iota.
  destruct (decide (Register.password (ui w) <> Register.confirmPassword (ui w)))
    as [Hne|Heq].
  { apply str_eq_false in Hne. rewrite Hne. split_and!; reflexivity. }
  assert (Hsame : str_eq (Register.password (ui w)) (Register.confirmPassword (ui w)) = true).
  { apply str_eq_true. by destruct (decide (Register.password (ui w)
                                           = Register.confirmPassword (ui w))). }
  rewrite Hsame. simpl negb. cbv iota.
  destruct (decide (length (Register.username (ui w)) < 3)%nat) as [Hshort|Hlong].
  { apply Nat.ltb_lt in Hshort. rewrite Hshort. split_and!; reflexivity. }
  assert (Hpw : (length (Register.password (ui w)) <? 6)%nat = true).
  { apply Nat.ltb_lt. destruct Hbad as [?|[?|?]]; [tauto|lia|lia]. }
  rewrite (proj2 (Nat.ltb_ge _ _)) by lia.
  rewrite Hpw. split_and!; reflexivity.
Qed.

Lemma register_validation_order_witness :
  Register.error (ui (Register.handleSubmit Sample.server_down Sample.register_mismatch))
  = Some (lit "Passwords do not match")
  /\ sent (Register.handleSubmit Sample.server_down Sample.register_mismatch) = []
  /\ calls (Register.handleSubmit Sample.server_down Sample.register_mismatch) = [].
Proof.
  apply (register_validation_order Sample.server_down Sample.register_mismatch).
  - discriminate.
  - discriminate.
  - discriminate.
  - left. discriminate.
Defined.

(** ** The add-friend form *)

Lemma some_true {A} (p : A -> bool) (arr : list A) (x : A) :
  x ∈ arr -> p x = true -> some p arr = true.
Proof.
  intros Hin Hp. unfold some. apply existsb_exists.
  exists x. split; [by apply list_elem_of_In|exact Hp].
Qed.

(** Whatever check rejects the name, the form then only sets the error. *)
Lemma FriendsList_add_rejected (props : FriendsList.Props) (net : FriendsList.Net)
    (w : World FriendsList.State) :
  trim (FriendsList.newFriend (ui w)) = []
  \/ FriendsList.newFriend (ui w) = FriendsList.props_username props
  \/ (exists friend, friend ∈ FriendsList.friends (ui w)
        /\ FriendsList.username friend = FriendsList.newFriend (ui w)) ->
  sent (FriendsList.handleAddFriend props net w) = sent w
  /\ FriendsList.friends (ui (FriendsList.handleAddFriend props net w))
     = FriendsList.friends (ui w).
Proof.
  intros H. unfold FriendsList.handleAddFriend.
  destruct (negb (truthy (trim (FriendsList.newFriend (ui w))))) eqn:Hblank;
    [split; reflexivity|].
  destruct (str_eq (FriendsList.newFriend (ui w)) (FriendsList.props_username props))
    eqn:Hself; [split; reflexivity|].
  destruct H as [H|[H|(friend & Hin & Hname)]].
  - by rewrite (blank_falsy _ H) in Hblank.
  - apply str_eq_false in Hself. contradiction.
  - rewrite (some_true _ _ friend Hin); [split; reflexivity|].
    by apply str_eq_true.
Qed.

Lemma FriendsList0_add_rejected (props : FriendsList0.Props) (net : FetchResult unit)
    (net_friends : FetchResult (list FriendsList0.Friend)) (w : World FriendsList0.State) :
  trim (FriendsList0.newFriend (ui w)) = []
  \/ FriendsList0.newFriend (ui w) = FriendsList0.props_username props
  \/ (exists friend, friend ∈ FriendsList0.friends (ui w)
        /\ FriendsList0.username friend = FriendsList0.newFriend (ui w)) ->
  sent (FriendsList0.handleAddFriend props net net_friends w) = sent w
  /\ FriendsList0.friends (ui (FriendsList0.handleAddFriend props net net_friends w))
     = FriendsList0.friends (ui w).
Proof.
  intros H. unfold FriendsList0.handleAddFriend.
  destruct (negb (truthy (trim (FriendsList0.newFriend (ui w))))) eqn:Hblank;
    [split; reflexivity|].
  destruct (str_eq (FriendsList0.newFriend (ui w)) (FriendsList0.props_username props))
    eqn:Hself; [split; reflexivity|].
  destruct H as [H|[H|(friend & Hin & Hname)]].
  - by rewrite (blank_falsy _ H) in Hblank.
  - apply str_eq_false in Hself. contradiction.
  - rewrite (some_true _ _ friend Hin); [split; reflexivity|].
    by apply str_eq_true.
Qed.

(** C10: when the name in the add-friend box is the user's own name, the
    form issues no request and leaves the friends list as it is, and the
    error is "You can't add yourself as a friend" (a logged-in username is
    not blank: a blank box is refused first, with its own message).  Both
    variants of the screen. *)
Theorem cannot_add_yourself
    (props : FriendsList.Props) (net : FriendsList.Net) (w : World FriendsList.State)
    (props0 : FriendsList0.Props) (net0 : FetchResult unit)
    (net_friends0 : FetchResult (list FriendsList0.Friend)) (w0 : World FriendsList0.State) :
  FriendsList.newFriend (ui w) = FriendsList.props_username props ->
  FriendsList0.newFriend (ui w0) = FriendsList0.props_username props0 ->
  (sent (FriendsList.handleAddFriend props net w) = sent w
   /\ FriendsList.friends (ui (FriendsList.handleAddFriend props net w))
      = FriendsList.friends (ui w)
   /\ (trim (FriendsList.props_username props) <> [] ->
       FriendsList.error (ui (FriendsList.handleAddFriend props net w))
       = lit "You can't add yourself as a friend"))
  /\ (sent (FriendsList0.handleAddFriend props0 net0 net_friends0 w0) = sent w0
      /\ FriendsList0.friends (ui (FriendsList0.handleAddFriend props0 net0 net_friends0 w0))
         = FriendsList0.friends (ui w0)
      /\ (trim (FriendsList0.props_username props0) <> [] ->
          FriendsList0.error (ui (FriendsList0.handleAddFriend props0 net0 net_friends0 w0))
          = lit "You can't add yourself as a friend")).
Proof.
  intros Hme Hme0. split.
  - destruct (FriendsList_add_rejected props net w) as [Hsent Hfriends]; [tauto|].
    split_and!; [exact Hsent|exact Hfriends|].
    intros Hname. unfold FriendsList.handleAddFriend.
    rewrite Hme, (not_blank_truthy _ Hname), str_eq_refl. reflexivity.
  - destruct (FriendsList0_add_rejected props0 net0 net_friends0 w0) as [Hsent Hfriends];
      [tauto|].
    split_and!; [exact Hsent|exact Hfriends|].
    intros Hname. unfold FriendsList0.handleAddFriend.
    rewrite Hme0, (not_blank_truthy _ Hname), str_eq_refl. reflexivity.
Qed.

Lemma cannot_add_yourself_witness :
  (sent (FriendsList.handleAddFriend Sample.ann_props Sample.all_down
           (Sample.friends_screen (lit "ann"))) = []
   /\ FriendsList.error (ui (FriendsList.handleAddFriend Sample.ann_props Sample.all_down
                               (Sample.friends_screen (lit "ann"))))
      = lit "You can't add yourself as a friend")
  /\ (sent (FriendsList0.handleAddFriend Sample.ann_props0 Sample.server_down
              Sample.server_down (Sample.friends_screen0 (lit "ann"))) = []
      /\ FriendsList0.error
           (ui (FriendsList0.handleAddFriend Sample.ann_props0 Sample.server_down
                  Sample.server_down (Sample.friends_screen0 (lit "ann"))))
         = lit "You can't add yourself as a friend").
Proof.
  destruct (cannot_add_yourself
              Sample.ann_props Sample.all_down (Sample.friends_screen (lit "ann"))
              Sample.ann_props0 Sample.server_down Sample.server_down
              (Sample.friends_screen0 (lit "ann")) eq_refl eq_refl)
    as [(Hs & _ & He) (Hs0 & _ & He0)].
  split; (split; [assumption|]).
  - apply He. discriminate.
  - apply He0. discriminate.
Defined.

(** C3, as stated, fails on the path that adds a suggested friend: the
    handler has no check of the local list, and POSTs also for a name that
    is among the friends. *)
Lemma suggested_friend_not_checked :
  Sample.bob ∈ FriendsList.friends (ui (Sample.friends_screen []))
  /\ FriendsList.username Sample.bob = lit "bob"
  /\ sent (FriendsList.handleAddSuggestedFriend (lit "bob") Sample.all_down
             (Sample.friends_screen []))
     = [{| method := POST; url := FriendsList.friends_url;
           body := Some [("username"%string, lit "bob")] |}]
  /\ FriendsList.error (ui (FriendsList.handleAddSuggestedFriend (lit "bob") Sample.all_down
                              (Sample.friends_screen [])))
     <> lit "This user is already your friend".
Proof. split_and!; [apply list_elem_of_here|reflexivity..|discriminate]. Qed.

(** C3, amended: in the add-friend form ([handleAddFriend], both variants
    of the screen), a name that a friend of the local list already has is
    rejected before any network call: no request is issued and the friends
    list is unchanged; the error is "This user is already your friend" when
    the name is neither blank nor the user's own (those two checks come
    first, with their own messages). *)
Theorem known_friend_rejected
    (props : FriendsList.Props) (net : FriendsList.Net) (w : World FriendsList.State)
    (props0 : FriendsList0.Props) (net0 : FetchResult unit)
    (net_friends0 : FetchResult (list FriendsList0.Friend)) (w0 : World FriendsList0.State) :
  (exists friend, friend ∈ FriendsList.friends (ui w)
     /\ FriendsList.username friend = FriendsList.newFriend (ui w)) ->
  (exists friend, friend ∈ FriendsList0.friends (ui w0)
     /\ FriendsList0.username friend = FriendsList0.newFriend (ui w0)) ->
  (sent (FriendsList.handleAddFriend props net w) = sent w
   /\ FriendsList.friends (ui (FriendsList.handleAddFriend props net w))
      = FriendsList.friends (ui w)
   /\ (trim (FriendsList.newFriend (ui w)) <> [] ->
       FriendsList.newFriend (ui w) <> FriendsList.props_username props ->
       FriendsList.error (ui (FriendsList.handleAddFriend props net w))
       = lit "This user is already your friend"))
  /\ (sent (FriendsList0.handleAddFriend props0 net0 net_friends0 w0) = sent w0
      /\ FriendsList0.friends (ui (FriendsList0.handleAddFriend props0 net0 net_friends0 w0))
         = FriendsList0.friends (ui w0)
      /\ (trim (FriendsList0.newFriend (ui w0)) <> [] ->
          FriendsList0.newFriend (ui w0) <> FriendsList0.props_username props0 ->
          FriendsList0.error (ui (FriendsList0.handleAddFriend props0 net0 net_friends0 w0))
          = lit "This user is already your friend")).
Proof.
  intros Hknown Hknown0. split.
  - destruct (FriendsList_add_rejected props net w) as [Hsent Hfriends]; [tauto|].
    split_and!; [exact Hsent|exact Hfriends|].
    intros Hname Hother. unfold FriendsList.handleAddFriend.
    apply str_eq_false in Hother. rewrite (not_blank_truthy _ Hname), Hother.
    destruct Hknown as (friend & Hin & Hsame).
    rewrite (some_true _ _ friend Hin); [reflexivity|by apply str_eq_true].
  - destruct (FriendsList0_add_rejected props0 net0 net_friends0 w0) as [Hsent Hfriends];
      [tauto|].
    split_and!; [exact Hsent|exact Hfriends|].
    intros Hname Hother. unfold FriendsList0.handleAddFriend.
    apply str_eq_false in Hother. rewrite (not_blank_truthy _ Hname), Hother.
    destruct Hknown0 as (friend & Hin & Hsame).
    rewrite (some_true _ _ friend Hin); [reflexivity|by apply str_eq_true].
Qed.

Lemma known_friend_rejected_witness :
  (sent (FriendsList.handleAddFriend Sample.ann_props Sample.all_down
           (Sample.friends_screen (lit "bob"))) = []
   /\ FriendsList.error (ui (FriendsList.handleAddFriend Sample.ann_props Sample.all_down
                               (Sample.friends_screen (lit "bob"))))
      = lit "This user is already your friend")
  /\ (sent (FriendsList0.handleAddFriend Sample.ann_props0 Sample.server_down
              Sample.server_down (Sample.friends_screen0 (lit "bob"))) = []
      /\ FriendsList0.error
           (ui (FriendsList0.handleAddFriend Sample.ann_props0 Sample.server_down
                  Sample.server_down (Sample.friends_screen0 (lit "bob"))))
         = lit "This user is already your friend").
Proof.
  destruct (known_friend_rejected
              Sample.ann_props Sample.all_down (Sample.friends_screen (lit "bob"))
              Sample.ann_props0 Sample.server_down Sample.server_down
              (Sample.friends_screen0 (lit "bob")))
    as [(Hs & _ & He) (Hs0 & _ & He0)].
  - exists Sample.bob. split; [apply list_elem_of_here|reflexivity].
  - exists Sample.bob0. split; [apply list_elem_of_here|reflexivity].
  - split; (split; [assumption|]).
    + apply He; discriminate.
    + apply He0; discriminate.
Defined.

(** ** What a failed request comes to *)

Lemma or_else_truthy (s d : jsstring) : truthy d = true -> truthy (or_else s d) = true.
Proof. unfold or_else. destruct (truthy s) eqn:Hs; congruence. Qed.

Lemma or_default_truthy (m : option jsstring) (d : jsstring) :
  truthy d = true -> truthy (or_default m d) = true.
Proof. destruct m; simpl; [apply or_else_truthy|trivial]. Qed.







(** * Further properties of the code *)

(** ** ChatRoom: runs of events, typing and sending *)

(** X1: after any run of [message_history] and [new_message] events, the
    list held is the last 100 of all the entries delivered, in the order of
    delivery: truncating after every event loses nothing that truncating
    once at the end would keep. *)
Theorem ChatRoom_run_last_100 (evs : list ChatRoom.SocketEvent) :
  ChatRoom.run evs = slice (- ChatRoom.MAX_MESSAGES) (concat (map delivered evs))
  /\ ChatRoom.run evs
     = drop (length (concat (map delivered evs)) - 100) (concat (map delivered evs)).
Proof.
  assert (H : ChatRoom.run evs
              = slice (- ChatRoom.MAX_MESSAGES) (concat (map delivered evs))).
  { induction evs as [|ev evs IH] using rev_ind; [reflexivity|].
    rewrite ChatRoom_run_snoc, IH, map_app, concat_app. simpl. rewrite app_nil_r.
    destruct ev; simpl;
      unfold ChatRoom.on_message_history, ChatRoom.on_new_message;
      apply slice_MAX_MESSAGES_app. }
  split; [exact H|]. rewrite H. apply slice_MAX_MESSAGES.
Qed.

Lemma typing_run_snoc (props : ChatRoomInput.Props) (evs : list (jsstring * bool))
    (ev : jsstring * bool) (s : ChatRoomInput.State) :
  ChatRoomInput.typing_run props (evs ++ [ev]) s
  = ChatRoomInput.on_typing_update props ev.1 ev.2 (ChatRoomInput.typing_run props evs s).
Proof. unfold ChatRoomInput.typing_run. by rewrite foldl_app. Qed.

Lemma last_typing_snoc (u : jsstring) (evs : list (jsstring * bool)) (ev : jsstring * bool) :
  last_typing u (evs ++ [ev]) = if decide (ev.1 = u) then Some ev.2 else last_typing u evs.
Proof.
  unfold last_typing. rewrite filter_app, filter_cons, filter_nil.
  destruct (decide (ev.1 = u)).
  - by rewrite last_snoc.
  - by rewrite app_nil_r.
Qed.

(** X2: over any run of ['typing_update'] events, the events about the user
    themself are ignored, and the flag kept for any other user is the one of
    the last event about them (the flag held before, when there was none);
    nothing else of the state changes. *)
Theorem typing_last_event_wins (props : ChatRoomInput.Props)
    (evs : list (jsstring * bool)) (s : ChatRoomInput.State) (u : jsstring) :
  ChatRoomInput.typingUsers (ChatRoomInput.typing_run props evs s) !! u
  = (if decide (u = ChatRoomInput.username props)
     then ChatRoomInput.typingUsers s !! u
     else match last_typing u evs with
          | Some typing => Some typing
          | None => ChatRoomInput.typingUsers s !! u
          end)
  /\ ChatRoomInput.setTypingUsers (ChatRoomInput.typingUsers s)
       (ChatRoomInput.typing_run props evs s) = s.
Proof.
  induction evs as [|[v b] evs [IHu IHs]] using rev_ind.
  - split; [|by destruct s]. simpl. by destruct (decide _).
  - rewrite typing_run_snoc, last_typing_snoc. simpl.
    unfold ChatRoomInput.on_typing_update.
    destruct (str_eq v (ChatRoomInput.username props)) eqn:Hv; simpl.
    + apply str_eq_true in Hv. split; [|exact IHs]. rewrite IHu.
      destruct (decide (u = ChatRoomInput.username props)) as [->|Hu]; [reflexivity|].
      destruct (decide (v = u)); [congruence|reflexivity].
    + apply str_eq_false in Hv. split; [|exact IHs].
      destruct (decide (v = u)) as [->|Hvu].
      * rewrite lookup_insert_eq. by destruct (decide _).
      * rewrite lookup_insert_ne by done. exact IHu.
Qed.

(** X3: [handleSendMessage] never adds to the message list (a message of
    one's own shows only when the server sends it back).  With no socket or
    a blank text it does nothing at all.  With a text but no target (not in
    a direct chat with a friend, and no current room) it emits no message,
    and still clears the text. *)
Theorem send_message_without_target (props : ChatRoomInput.Props) (socket : bool)
    (s : ChatRoomInput.State) :
  ChatRoomInput.messages (ChatRoomInput.handleSendMessage props socket s).1
  = ChatRoomInput.messages s
  /\ (socket = false \/ trim (ChatRoomInput.message s) = [] ->
      ChatRoomInput.handleSendMessage props socket s = (s, []))
  /\ (socket = true ->
      trim (ChatRoomInput.message s) <> [] ->
      ChatRoomInput.directChatMode s
        && ChatRoomInput.field_truthy (ChatRoomInput.selectedFriend props) = false ->
      ChatRoomInput.currentRoom s = [] ->
      ChatRoomInput.message (ChatRoomInput.handleSendMessage props socket s).1 = []
      /\ (ChatRoomInput.handleSendMessage props socket s).2
         = [ChatRoomInput.emit_typing (ChatRoomInput.typing_room s)
              (ChatRoomInput.typing_friend props s) false]).
Proof.
  unfold ChatRoomInput.handleSendMessage. split_and!.
  - destruct (negb socket || negb (truthy (trim (ChatRoomInput.message s)))); reflexivity.
  - intros [->|H]; [reflexivity|]. by rewrite (blank_falsy _ H), orb_true_r.
  - intros -> Htext Hdirect Hroom.
    rewrite (not_blank_truthy _ Htext), Hdirect, Hroom. split; reflexivity.
Qed.

(** X4: the timeout set by the keystroke that starts the typing closes over
    [isTyping = false]: when it fires with no keystroke in between, it emits
    nothing and [isTyping] stays true, so the others are not told that the
    typing stopped.  The timeout set by a keystroke made while [isTyping] is
    true does reset it and emits [typing: false]. *)
Theorem typing_timeout_closure (props : ChatRoomInput.Props) (value : jsstring)
    (s : ChatRoomInput.State) :
  trim value <> [] ->
  (ChatRoomInput.isTyping s = false ->
   (ChatRoomInput.handleInputChange props true value s).2
   = [ChatRoomInput.emit_typing (ChatRoomInput.typing_room s)
        (ChatRoomInput.typing_friend props s) true]
   /\ (ChatRoomInput.timeout_fires (ChatRoomInput.handleInputChange props true value s).1).2
      = []
   /\ ChatRoomInput.isTyping
        (ChatRoomInput.timeout_fires (ChatRoomInput.handleInputChange props true value s).1).1
      = true)
  /\ (ChatRoomInput.isTyping s = true ->
      (ChatRoomInput.handleInputChange props true value s).2 = []
      /\ (ChatRoomInput.timeout_fires
            (ChatRoomInput.handleInputChange props true value s).1).2
         = [ChatRoomInput.emit_typing (ChatRoomInput.typing_room s)
              (ChatRoomInput.typing_friend props s) false]
      /\ ChatRoomInput.isTyping
           (ChatRoomInput.timeout_fires
              (ChatRoomInput.handleInputChange props true value s).1).1
         = false).
Proof.
  intros Hvalue. unfold ChatRoomInput.handleInputChange, ChatRoomInput.timeout_fires.
  assert (Ht : truthy (trim value) = true) by (by destruct (trim value)).
  split; intros Htyping; rewrite Htyping, ?Ht; simpl; rewrite ?Htyping;
    split_and!; reflexivity.
Qed.

Lemma typing_timeout_closure_witness :
  (ChatRoomInput.timeout_fires
     (ChatRoomInput.handleInputChange Sample.ann_chat true (lit "h")
        Sample.idle_in_general).1).2 = []
  /\ ChatRoomInput.isTyping
       (ChatRoomInput.timeout_fires
          (ChatRoomInput.handleInputChange Sample.ann_chat true (lit "h")
             Sample.idle_in_general).1).1 = true.
Proof.
  destruct (typing_timeout_closure Sample.ann_chat (lit "h") Sample.idle_in_general)
    as [Hfirst _]; [discriminate|].
  destruct (Hfirst eq_refl) as (_ & Hemit & Hstill). split; assumption.
Defined.

Example send_without_target :
  ChatRoomInput.handleSendMessage Sample.ann_chat true Sample.no_target
  = (ChatRoomInput.set_typingTimeout None
       (ChatRoomInput.setIsTyping false (ChatRoomInput.setMessage [] Sample.no_target)),
     [ChatRoomInput.emit_typing (ChatRoomInput.Str []) ChatRoomInput.Undefined false]).
Proof. reflexivity. Qed.

(** ** Login and Register: what a submission that passes the checks does *)

Lemma truthy_not_nil (s : jsstring) : truthy s = true <-> s <> [].
Proof. destruct s; simpl; split; congruence. Qed.

(** X5: a Login submission with both fields filled in issues exactly one
    POST, carrying the trimmed username and the password as typed, and ends
    with [isLoading] false.  [onLogin] is called, once and with the server's
    user, exactly when the server responds success, and the two fields are
    cleared then; on every other outcome [onLogin] is not called, the fields
    keep what was typed and a non-empty error is shown. *)
Theorem login_outcome (net : FetchResult User.User) (w : World Login.State) :
  trim (Login.username (ui w)) <> [] ->
  trim (Login.password (ui w)) <> [] ->
  sent (Login.handleSubmit net w)
  = sent w ++
    [{| method := POST; url := lit "http://localhost:5000/api/login";
        body := Some [("username"%string, trim (Login.username (ui w)));
                      ("password"%string, Login.password (ui w))] |}]
  /\ Login.isLoading (ui (Login.handleSubmit net w)) = false
  /\ (forall user m,
        net = Resolved true (inr (JsonSuccess user m)) ->
        calls (Login.handleSubmit net w) = calls w ++ [onLogin user]
        /\ Login.username (ui (Login.handleSubmit net w)) = []
        /\ Login.password (ui (Login.handleSubmit net w)) = []
        /\ Login.error (ui (Login.handleSubmit net w)) = None)
  /\ (responds_success net = false ->
      calls (Login.handleSubmit net w) = calls w
      /\ Login.username (ui (Login.handleSubmit net w)) = Login.username (ui w)
      /\ Login.password (ui (Login.handleSubmit net w)) = Login.password (ui w)
      /\ exists shown, Login.error (ui (Login.handleSubmit net w)) = Some shown
                       /\ shown <> []).
Proof.
  intros Hu Hp. unfold Login.handleSubmit.
  rewrite (not_blank_truthy _ Hu), (not_blank_truthy _ Hp). simpl orb. cbv iota.
  split_and!.
  - destruct net as [e|[] [e|[user m|m]]]; reflexivity.
  - destruct net as [e|[] [e|[user m|m]]]; reflexivity.
  - intros user m ->. split_and!; reflexivity.
  - intros Hfail.
    destruct net as [e|[] [e|[user m|m]]]; try discriminate;
      (split_and!; [reflexivity..|]); eexists; (split; [reflexivity|]);
      apply truthy_not_nil;
      first [apply or_else_truthy; reflexivity | apply or_default_truthy; reflexivity].
Qed.

Lemma login_outcome_witness :
  calls (Login.handleSubmit Sample.invalid_credentials Sample.login_ann) = []
  /\ Login.username (ui (Login.handleSubmit Sample.invalid_credentials Sample.login_ann))
     = lit "ann"
  /\ Login.isLoading (ui (Login.handleSubmit Sample.invalid_credentials Sample.login_ann))
     = false.
Proof.
  destruct (login_outcome Sample.invalid_credentials Sample.login_ann)
    as (_ & Hload & _ & Hfail); [discriminate..|].
  destruct (Hfail eq_refl) as (Hcalls & Huser & _).
  split_and!; assumption.
Defined.



(** ** FriendsList: an accepted add, and the connection check *)

Lemma FriendsList_fetchSuggestions_sent (net : FetchResult (list FriendsList.Friend))
    (w : World FriendsList.State) :
  sent (FriendsList.fetchSuggestions net w)
  = sent w ++ [{| method := GET; url := lit "http://localhost:5000/api/friends/suggestions";
                  body := None |}].
Proof. destruct net as [e|[] [e|[l m|m]]]; reflexivity. Qed.

Lemma FriendsList_fetchSuggestions_newFriend (net : FetchResult (list FriendsList.Friend))
    (w : World FriendsList.State) :
  FriendsList.newFriend (ui (FriendsList.fetchSuggestions net w))
  = FriendsList.newFriend (ui w).
Proof. destruct net as [e|[] [e|[l m|m]]]; reflexivity. Qed.

Lemma FriendsList_fetchFriends_sent (net : FetchResult (list FriendsList.Friend))
    (w : World FriendsList.State) :
  sent (FriendsList.fetchFriends net w)
  = sent w ++ [{| method := GET; url := FriendsList.friends_url; body := None |}].
Proof. destruct net as [e|[] [e|[l m|m]]]; reflexivity. Qed.

Lemma FriendsList_fetchFriends_friends (net : FetchResult (list FriendsList.Friend))
    (w : World FriendsList.State) :
  FriendsList.friends (ui (FriendsList.fetchFriends net w))
  = default (FriendsList.friends (ui w)) (success_payload net).
Proof. destruct net as [e|[] [e|[l m|m]]]; reflexivity. Qed.

Lemma FriendsList_fetchFriends_newFriend (net : FetchResult (list FriendsList.Friend))
    (w : World FriendsList.State) :
  FriendsList.newFriend (ui (FriendsList.fetchFriends net w))
  = FriendsList.newFriend (ui w).
Proof. destruct net as [e|[] [e|[l m|m]]]; reflexivity. Qed.

(** X7: when the name in the add-friend box is not blank, not the user's own
    and not the name of a friend, [handleAddFriend] POSTs it as typed.  The
    friend is never added to the local list by the handler: when the server
    responds success the handler clears the box and reloads the friends and
    the suggestions (three requests in all), and the friends list is then
    what the reload gives, or the old list when the reload fails; on every
    other outcome the POST is the only request, and the box and the list
    stay as they were. *)
Theorem add_friend_reloads (props : FriendsList.Props) (net : FriendsList.Net)
    (w : World FriendsList.State) :
  trim (FriendsList.newFriend (ui w)) <> [] ->
  FriendsList.newFriend (ui w) <> FriendsList.props_username props ->
  (forall friend, friend ∈ FriendsList.friends (ui w) ->
                  FriendsList.username friend <> FriendsList.newFriend (ui w)) ->
  (responds_success (FriendsList.net_own net) = true ->
   sent (FriendsList.handleAddFriend props net w)
   = sent w ++
     [{| method := POST; url := FriendsList.friends_url;
         body := Some [("username"%string, FriendsList.newFriend (ui w))] |};
      {| method := GET; url := FriendsList.friends_url; body := None |};
      {| method := GET; url := lit "http://localhost:5000/api/friends/suggestions";
         body := None |}]
   /\ FriendsList.friends (ui (FriendsList.handleAddFriend props net w))
      = default (FriendsList.friends (ui w)) (success_payload (FriendsList.net_friends net))
   /\ FriendsList.newFriend (ui (FriendsList.handleAddFriend props net w)) = [])
  /\ (responds_success (FriendsList.net_own net) = false ->
      sent (FriendsList.handleAddFriend props net w)
      = sent w ++
        [{| method := POST; url := FriendsList.friends_url;
            body := Some [("username"%string, FriendsList.newFriend (ui w))] |}]
      /\ FriendsList.friends (ui (FriendsList.handleAddFriend props net w))
         = FriendsList.friends (ui w)
      /\ FriendsList.newFriend (ui (FriendsList.handleAddFriend props net w))
         = FriendsList.newFriend (ui w)).
Proof.
  intros Hname Hself Hnew. unfold FriendsList.handleAddFriend.
  apply str_eq_false in Hself. rewrite (not_blank_truthy _ Hname), Hself.
  rewrite some_false.
  2:{ intros friend Hin. apply str_eq_false. by apply Hnew. }
  destruct net as [own nf ns]. simpl FriendsList.net_own.
  simpl FriendsList.net_friends. simpl FriendsList.net_suggestions.
  split; intros Hown; destruct own as [e|[] [e|[[] m|m]]]; try discriminate;
    try (split_and!; reflexivity).
  split_and!.
  - simpl. rewrite FriendsList_fetchSuggestions_sent, FriendsList_fetchFriends_sent.
    simpl. rewrite <- !app_assoc. reflexivity.
  - simpl. rewrite FriendsList_fetchSuggestions_friends, FriendsList_fetchFriends_friends.
    reflexivity.
  - simpl. rewrite FriendsList_fetchSuggestions_newFriend,
      FriendsList_fetchFriends_newFriend. reflexivity.
Qed.

Lemma add_friend_reloads_witness :
  FriendsList.friends
    (ui (FriendsList.handleAddFriend Sample.ann_props Sample.added_eve
           (Sample.friends_screen (lit "eve"))))
  = [Sample.bob; Sample.eve]
  /\ length (sent (FriendsList.handleAddFriend Sample.ann_props Sample.added_eve
                     (Sample.friends_screen (lit "eve")))) = 3%nat.
Proof.
  destruct (add_friend_reloads Sample.ann_props Sample.added_eve
              (Sample.friends_screen (lit "eve"))) as [Hok _].
  - discriminate.
  - discriminate.
  - intros friend Hin. apply list_elem_of_singleton in Hin. subst friend. discriminate.
  - destruct (Hok eq_refl) as (Hsent & Hfriends & _).
    split; [exact Hfriends|]. rewrite Hsent. reflexivity.
Defined.

(** X8: the connection check, click and answers apart.
    - A click with a blank target issues no request, sets the error
      "Please enter a username to check" and leaves the answer shown as it
      was.  A click with any other target blanks [isConnected] and [path]
      and issues the two GETs, the target spliced into the URL as typed.
    - The answer to the first query, when it lands, writes [isConnected]
      alone, and only on a success; a failure is logged and shown as the
      generic network error.  The answer to the second writes [path] alone,
      and only on a success; a failure is logged and nothing is shown.
      Neither issues a request, and the two land in either order with the
      same state shown.
    - Neither answer looks at the target or at which click asked: the
      answer to an earlier check that lands after a later click, and after
      that click's own answer, is the one left on the screen. *)
Theorem check_connection_answer (w : World FriendsList.State) :
  (trim (FriendsList.targetUser (ui w)) = [] ->
   sent (FriendsListConnection.handleCheckConnection w) = sent w
   /\ FriendsList.error (ui (FriendsListConnection.handleCheckConnection w))
      = lit "Please enter a username to check"
   /\ FriendsList.isConnected (ui (FriendsListConnection.handleCheckConnection w))
      = FriendsList.isConnected (ui w)
   /\ FriendsList.path (ui (FriendsListConnection.handleCheckConnection w))
      = FriendsList.path (ui w))
  /\ (trim (FriendsList.targetUser (ui w)) <> [] ->
      sent (FriendsListConnection.handleCheckConnection w)
      = sent w ++
        [{| method := GET;
            url := FriendsListConnection.connected_url (FriendsList.targetUser (ui w));
            body := None |};
         {| method := GET;
            url := FriendsListConnection.path_url (FriendsList.targetUser (ui w));
            body := None |}]
      /\ FriendsList.isConnected (ui (FriendsListConnection.handleCheckConnection w)) = None
      /\ FriendsList.path (ui (FriendsListConnection.handleCheckConnection w)) = []
      /\ FriendsList.error (ui (FriendsListConnection.handleCheckConnection w))
         = FriendsList.error (ui w))
  /\ (forall net : FetchResult bool,
        FriendsList.isConnected (ui (FriendsListConnection.connected_answered net w))
        = match success_payload net with
          | Some data_connected => Some data_connected
          | None => FriendsList.isConnected (ui w)
          end
        /\ FriendsList.path (ui (FriendsListConnection.connected_answered net w))
           = FriendsList.path (ui w)
        /\ sent (FriendsListConnection.connected_answered net w) = sent w
        /\ (request_failed net = true ->
            FriendsList.error (ui (FriendsListConnection.connected_answered net w))
            = NETWORK_ERROR
            /\ exists err,
                 console (FriendsListConnection.connected_answered net w)
                 = console w ++ [("Error checking connection:"%string, LogError err)])
        /\ (request_failed net = false ->
            FriendsList.error (ui (FriendsListConnection.connected_answered net w))
            = FriendsList.error (ui w)
            /\ console (FriendsListConnection.connected_answered net w) = console w))
  /\ (forall net : FetchResult (list jsstring),
        FriendsList.path (ui (FriendsListConnection.path_answered net w))
        = default (FriendsList.path (ui w)) (success_payload net)
        /\ FriendsList.isConnected (ui (FriendsListConnection.path_answered net w))
           = FriendsList.isConnected (ui w)
        /\ FriendsList.error (ui (FriendsListConnection.path_answered net w))
           = FriendsList.error (ui w)
        /\ sent (FriendsListConnection.path_answered net w) = sent w
        /\ (request_failed net = true ->
            exists err,
              console (FriendsListConnection.path_answered net w)
              = console w ++ [("Error fetching path:"%string, LogError err)])
        /\ (request_failed net = false ->
            console (FriendsListConnection.path_answered net w) = console w))
  /\ (forall (net_connected : FetchResult bool) (net_path : FetchResult (list jsstring)),
        ui (FriendsListConnection.connected_answered net_connected
              (FriendsListConnection.path_answered net_path w))
        = ui (FriendsListConnection.path_answered net_path
                (FriendsListConnection.connected_answered net_connected w)))
  /\ (forall (earlier later : FetchResult bool) (stale : bool),
        success_payload earlier = Some stale ->
        FriendsList.isConnected
          (ui (FriendsListConnection.connected_answered earlier
                 (FriendsListConnection.connected_answered later
                    (FriendsListConnection.handleCheckConnection
                       (FriendsListConnection.handleCheckConnection w)))))
        = Some stale).
Proof.
  split_and!.
  - intros Hblank. unfold FriendsListConnection.handleCheckConnection.
    rewrite (blank_falsy _ Hblank). split_and!; reflexivity.
  - intros Htarget. unfold FriendsListConnection.handleCheckConnection.
    rewrite (not_blank_truthy _ Htarget). simpl. rewrite <- ?app_assoc.
    split_and!; reflexivity.
  - intros net. destruct net as [e|[] [e|[c m|m]]]; simpl;
      (split_and!; [reflexivity..| |]); intros H; try discriminate;
      (split; [reflexivity|]); try reflexivity; eexists; reflexivity.
  - intros net. destruct net as [e|[] [e|[p m|m]]]; simpl;
      (split_and!; [reflexivity..| |]); intros H; try discriminate;
      try reflexivity; eexists; reflexivity.
  - intros net_connected net_path.
    destruct net_connected as [e|[] [e|[c m|m]]];
      destruct net_path as [e'|[] [e'|[p m'|m']]]; reflexivity.
  - intros earlier later stale Hearlier.
    destruct earlier as [e|[] [e|[c m|m]]]; try discriminate.
    injection Hearlier as ->. reflexivity.
Qed.

(** ** The socket module *)

Lemma array_filter_keeps {A} (p : A -> bool) (arr : list A) :
  (forall x, x ∈ arr -> p x = true) -> array_filter p arr = arr.
Proof.
  induction arr as [|x arr IH]; intros H; simpl; [reflexivity|].
  rewrite (H x) by apply list_elem_of_here. f_equal.
  apply IH. intros y Hy. apply H. by apply list_elem_of_further.
Qed.

(** X9: [connectSocket] gives back the current socket only while it is
    connected.  Called when there is no socket, or one whose connection is
    not up (yet), it opens a new socket and forgets the old one without
    disconnecting it: two calls with no ['connect'] event between them
    open two sockets, and [disconnectSocket] afterwards closes only the
    second; [getSocket] then gives null. *)
Theorem connectSocket_twice (st : Socket.State) :
  (forall i, Socket.socket st = Some (i, true) ->
             Socket.connectSocket st = (i, st))
  /\ ((forall i, Socket.socket st <> Some (i, true)) ->
      let first := Socket.connectSocket st in
      let second := Socket.connectSocket (snd first) in
      fst first <> fst second
      /\ Socket.getSocket (snd second) = Some (fst second)
      /\ Socket.open_sockets (snd second)
         = Socket.open_sockets st ++ [fst first; fst second]
      /\ fst first ∈ Socket.open_sockets (Socket.disconnectSocket (snd second))
      /\ (fst second ∉ Socket.open_sockets (Socket.disconnectSocket (snd second)))
      /\ Socket.getSocket (Socket.disconnectSocket (snd second)) = None).
Proof.
  split.
  - intros i Hi. unfold Socket.connectSocket. by rewrite Hi.
  - intros Hdown. cbv zeta.
    assert (Hfirst : Socket.connectSocket st
                     = (Socket.next st,
                        {| Socket.socket := Some (Socket.next st, false);
                           Socket.open_sockets := Socket.open_sockets st ++ [Socket.next st];
                           Socket.next := S (Socket.next st) |})).
    { unfold Socket.connectSocket. destruct (Socket.socket st) as [[i []]|] eqn:Hs;
        [by destruct (Hdown i)|reflexivity..]. }
    rewrite Hfirst. simpl. split_and!.
    + lia.
    + reflexivity.
    + by rewrite <- app_assoc.
    + apply array_filter_elem_of. split.
      * rewrite !elem_of_app, !list_elem_of_singleton. tauto.
      * apply negb_true_iff, Nat.eqb_neq. lia.
    + rewrite array_filter_elem_of, negb_true_iff, Nat.eqb_neq. tauto.
    + reflexivity.
Qed.

Lemma connectSocket_twice_witness :
  fst (Socket.connectSocket Socket.initial)
  ∈ Socket.open_sockets
      (Socket.disconnectSocket
         (snd (Socket.connectSocket (snd (Socket.connectSocket Socket.initial))))).
Proof.
  destruct (connectSocket_twice Socket.initial) as [_ H].
  apply H. discriminate.
Defined.

(** ** App: logging out *)

(** X10: [handleLogout] issues one POST, and what it does with the answer
    depends on the body alone.  A body with a truthy [success] logs out and
    resets the notifications, the selected friend and the tab.  A body with a
    falsy [success] leaves the session as it is: the user stays logged in.
    A request that fails, or a body that does not parse, forces the logout
    (user, storage and socket are cleared) and keeps the notifications, the
    selected friend and the tab of the session that ended. *)
Theorem logout_outcomes (net : FetchResult unit) (ss : AppSession.Session) :
  sent (AppSession.app (AppSession.handleLogout net ss))
  = sent (AppSession.app ss)
    ++ [{| method := POST; url := lit "http://localhost:5000/api/logout"; body := None |}]
  /\ (body_refuses net = true ->
      ui (AppSession.app (AppSession.handleLogout net ss)) = ui (AppSession.app ss)
      /\ AppSession.stored_user (AppSession.handleLogout net ss)
         = AppSession.stored_user ss
      /\ AppSession.sockets (AppSession.handleLogout net ss) = AppSession.sockets ss)
  /\ (body_refuses net = false ->
      App.user (ui (AppSession.app (AppSession.handleLogout net ss))) = None
      /\ App.isAuthenticated (ui (AppSession.app (AppSession.handleLogout net ss))) = false
      /\ AppSession.stored_user (AppSession.handleLogout net ss) = None
      /\ Socket.getSocket (AppSession.sockets (AppSession.handleLogout net ss)) = None)
  /\ (body_success net = true ->
      App.notifications (ui (AppSession.app (AppSession.handleLogout net ss))) = []
      /\ App.selectedFriend (ui (AppSession.app (AppSession.handleLogout net ss))) = None
      /\ App.activeTab (ui (AppSession.app (AppSession.handleLogout net ss))) = lit "chat")
  /\ (body_success net = false ->
      App.notifications (ui (AppSession.app (AppSession.handleLogout net ss)))
      = App.notifications (ui (AppSession.app ss))
      /\ App.selectedFriend (ui (AppSession.app (AppSession.handleLogout net ss)))
         = App.selectedFriend (ui (AppSession.app ss))
      /\ App.activeTab (ui (AppSession.app (AppSession.handleLogout net ss)))
         = App.activeTab (ui (AppSession.app ss))).
Proof.
  assert (Hgone : forall st, Socket.getSocket (Socket.disconnectSocket st) = None).
  { intros st. unfold Socket.disconnectSocket, Socket.getSocket.
    destruct (Socket.socket st) as [[i c]|] eqn:Hs; simpl; [reflexivity|by rewrite Hs]. }
  split_and!.
  - destruct net as [e|ok [e|[[] m|m]]]; reflexivity.
  - intros H. destruct net as [e|ok [e|[[] m|m]]]; try discriminate.
    destruct ss as [[s c r k] u so]. split_and!; reflexivity.
  - intros H. destruct net as [e|ok [e|[[] m|m]]]; try discriminate;
      (split_and!; [reflexivity..|apply Hgone]).
  - intros H. destruct net as [e|ok [e|[[] m|m]]]; try discriminate.
    split_and!; reflexivity.
  - intros H. destruct net as [e|ok [e|[[] m|m]]]; try discriminate;
      split_and!; reflexivity.
Qed.

Example forced_logout_keeps_notifications :
  let after := AppSession.handleLogout Sample.server_down Sample.ann_session in
  App.user (ui (AppSession.app after)) = None
  /\ App.notifications (ui (AppSession.app after)) = [lit "bob sent you a friend request"]
  /\ App.selectedFriend (ui (AppSession.app after)) = Some (lit "bob").
Proof. split_and!; reflexivity. Qed.

(** ** ChatContext: messages *)

(** X11: [sendMessage] files the message the server made under the current
    chat's id, at the end, and emits it.  When the server then delivers the
    same message as a ['message'] event (a message of the user's own to the
    current chat), it is filed there again: the chat ends in two copies. *)
Theorem sent_message_echoed (user : AuthContext.User) (currentChat : ChatContext.Friend.Friend)
    (content : jsstring) (newMessage : ChatContext.Message.Message)
    (w : World ChatContext.State) :
  ChatContext.currentChat (ui w) = Some currentChat ->
  ChatContext.Message.senderId newMessage = AuthContext.id user ->
  ChatContext.Message.receiverId newMessage = ChatContext.Friend.id currentChat ->
  let after :=
    ChatContextActions.sendMessage (Some user) true content (AxiosResolved newMessage) w in
  let old := default [] (ChatContext.messages (ui w) !! ChatContext.Friend.id currentChat) in
  ChatContextActions.emitted after = [newMessage]
  /\ ChatContextActions.thrown after = None
  /\ ChatContext.messages (ui (ChatContextActions.world after))
       !! ChatContext.Friend.id currentChat
     = Some (old ++ [newMessage])
  /\ ChatContext.on_message (Some user) newMessage
       (ChatContext.messages (ui (ChatContextActions.world after)))
       !! ChatContext.Friend.id currentChat
     = Some (old ++ [newMessage; newMessage]).
Proof.
  intros Hchat Hsender Hreceiver. cbv zeta.
  unfold ChatContextActions.sendMessage. rewrite Hchat. simpl.
  split_and!; [reflexivity..| |].
  - apply lookup_insert_eq.
  - unfold ChatContext.on_message, ChatContext.chatId.
    rewrite Hsender, str_eq_refl, Hreceiver.
    rewrite !lookup_insert_eq. simpl. by rewrite <- app_assoc.
Qed.

Lemma sent_message_echoed_witness :
  ChatContext.on_message (Some Sample.ann_auth) Sample.hi_carl
    (ChatContext.messages
       (ui (ChatContextActions.world
              (ChatContextActions.sendMessage (Some Sample.ann_auth) true (lit "hi")
                 (AxiosResolved Sample.hi_carl) Sample.chat_with_carl))))
    !! lit "u2"
  = Some [Sample.hi_carl; Sample.hi_carl].
Proof.
  exact (proj2 (proj2 (proj2
           (sent_message_echoed Sample.ann_auth Sample.carl (lit "hi") Sample.hi_carl
              Sample.chat_with_carl eq_refl eq_refl eq_refl)))).
Defined.

(** X12: a ['message'] event changes the chat of the other party only: the
    receiver's when the user is the sender, the sender's otherwise (also for
    a message between two others, and when no user is logged in).  Every
    other chat is as before, and the chat it lands in only grows. *)
Theorem message_filed_under_other_party (user : option AuthContext.User)
    (message : ChatContext.Message.Message)
    (prev : gmap jsstring (list ChatContext.Message.Message)) :
  (forall u, user = Some u ->
             ChatContext.Message.senderId message = AuthContext.id u ->
             ChatContext.chatId user message = ChatContext.Message.receiverId message)
  /\ ((forall u, user = Some u ->
                 ChatContext.Message.senderId message <> AuthContext.id u) ->
      ChatContext.chatId user message = ChatContext.Message.senderId message)
  /\ (forall chat, chat <> ChatContext.chatId user message ->
                   ChatContext.on_message user message prev !! chat = prev !! chat)
  /\ (forall chat msgs, prev !! chat = Some msgs ->
        exists msgs', ChatContext.on_message user message prev !! chat = Some msgs'
                      /\ msgs `prefix_of` msgs').
Proof.
  split_and!.
  - intros u -> Hme. unfold ChatContext.chatId. by rewrite Hme, str_eq_refl.
  - intros Hother. unfold ChatContext.chatId. destruct user as [u|]; [|reflexivity].
    specialize (Hother u eq_refl). apply str_eq_false in Hother. by rewrite Hother.
  - intros chat Hchat. unfold ChatContext.on_message. by rewrite lookup_insert_ne.
  - intros chat msgs Hmsgs. unfold ChatContext.on_message.
    destruct (decide (chat = ChatContext.chatId user message)) as [<-|Hne].
    + rewrite lookup_insert_eq, Hmsgs. simpl. eexists. split; [reflexivity|].
      by apply prefix_app_r.
    + rewrite lookup_insert_ne by done. exists msgs. split; [exact Hmsgs|reflexivity].
Qed.

(** X13: [deleteMessage] without a user or without a current chat does
    nothing.  When the request is rejected it logs, rejects with "Failed to
    delete message" and leaves every chat as it is.  When the request
    resolves and the current chat is loaded, the current chat loses the
    messages with the id and keeps the others in their order, and every
    other chat is as before; when the current chat is not loaded, the state
    update does not go through. *)
Theorem delete_message_frame (user : AuthContext.User) (currentChat : ChatContext.Friend.Friend)
    (messageId : jsstring) (net : AxiosResult unit) (w : World ChatContext.State) :
  ChatContext.currentChat (ui w) = Some currentChat ->
  let after := ChatContextActions.deleteMessage (Some user) messageId net w in
  let chat := ChatContext.Friend.id currentChat in
  (forall e, net = AxiosRejected e ->
     ChatContextActions.thrown after.1 = Some (Error (lit "Failed to delete message"))
     /\ ui (ChatContextActions.world after.1) = ui w)
  /\ (forall d msgs, net = AxiosResolved d ->
        ChatContext.messages (ui w) !! chat = Some msgs ->
        after.2 = true
        /\ ChatContextActions.thrown after.1 = None
        /\ ChatContext.messages (ui (ChatContextActions.world after.1)) !! chat
           = Some (array_filter
                     (fun msg => negb (str_eq (ChatContext.Message.id msg) messageId)) msgs)
        /\ (forall other, other <> chat ->
              ChatContext.messages (ui (ChatContextActions.world after.1)) !! other
              = ChatContext.messages (ui w) !! other))
  /\ (forall d, net = AxiosResolved d ->
        ChatContext.messages (ui w) !! chat = None ->
        after.2 = false /\ ui (ChatContextActions.world after.1) = ui w)
  /\ ChatContextActions.deleteMessage None messageId net w = (ChatContextActions.done w, true).
Proof.
  intros Hchat. cbv zeta. unfold ChatContextActions.deleteMessage. rewrite Hchat.
  split_and!.
  - intros e ->. split; reflexivity.
  - intros d msgs -> Hmsgs. unfold ChatContextActions.delete_updater. simpl.
    rewrite Hmsgs. simpl. split_and!; [reflexivity..|apply lookup_insert_eq|].
    intros other Hother. by rewrite lookup_insert_ne.
  - intros d -> Hnone. unfold ChatContextActions.delete_updater. simpl.
    rewrite Hnone. split; reflexivity.
  - reflexivity.
Qed.

Lemma delete_message_frame_witness :
  (ChatContextActions.deleteMessage (Some Sample.ann_auth) (lit "m1") (AxiosResolved ())
     Sample.chat_with_carl).2 = false.
Proof.
  destruct (delete_message_frame Sample.ann_auth Sample.carl (lit "m1") (AxiosResolved ())
              Sample.chat_with_carl eq_refl) as (_ & _ & Hcrash & _).
  exact (proj1 (Hcrash () eq_refl eq_refl)).
Defined.

(** ** ChatContext: friend requests *)

(** X14: [acceptFriendRequest] and [rejectFriendRequest], when the request
    resolves, drop every pending request of that user id; accepting also
    puts the friend the server returned at the end of the friends list,
    whether or not the list has that friend already, and rejecting leaves
    the friends list alone.  When the request is rejected, both lists are as
    before and the promise rejects with the action's own message. *)
Theorem friend_request_resolution (user : AuthContext.User) (userId : jsstring)
    (net_accept : AxiosResult ChatContext.Friend.Friend) (net_reject : AxiosResult unit)
    (w : World ChatContext.State) :
  let accepted := ChatContextActions.acceptFriendRequest (Some user) userId net_accept w in
  let rejected := ChatContextActions.rejectFriendRequest (Some user) userId net_reject w in
  (forall data, net_accept = AxiosResolved data ->
     ChatContext.friends (ui (ChatContextActions.world accepted))
     = ChatContext.friends (ui w) ++ [data]
     /\ (forall req, req ∈ ChatContext.friendRequests (ui (ChatContextActions.world accepted))
           <-> req ∈ ChatContext.friendRequests (ui w)
               /\ ChatContext.Friend.id req <> userId)
     /\ ChatContextActions.thrown accepted = None)
  /\ (forall e, net_accept = AxiosRejected e ->
        ui (ChatContextActions.world accepted) = ui w
        /\ ChatContextActions.thrown accepted
           = Some (Error (lit "Failed to accept friend request")))
  /\ (forall d, net_reject = AxiosResolved d ->
        ChatContext.friends (ui (ChatContextActions.world rejected))
        = ChatContext.friends (ui w)
        /\ (forall req,
              req ∈ ChatContext.friendRequests (ui (ChatContextActions.world rejected))
              <-> req ∈ ChatContext.friendRequests (ui w)
                  /\ ChatContext.Friend.id req <> userId)
        /\ ChatContextActions.thrown rejected = None)
  /\ (forall e, net_reject = AxiosRejected e ->
        ui (ChatContextActions.world rejected) = ui w
        /\ ChatContextActions.thrown rejected
           = Some (Error (lit "Failed to reject friend request"))).
Proof.
  cbv zeta. split_and!.
  - intros data ->. simpl. split_and!; [reflexivity| |reflexivity].
    intros req. by rewrite array_filter_elem_of, negb_true_iff, str_eq_false.
  - intros e ->. split; reflexivity.
  - intros d ->. simpl. split_and!; [reflexivity| |reflexivity].
    intros req. by rewrite array_filter_elem_of, negb_true_iff, str_eq_false.
  - intros e ->. split; reflexivity.
Qed.

Example accept_known_friend :
  let accepted :=
    ChatContextActions.acceptFriendRequest (Some Sample.ann_auth) (lit "u3")
      (AxiosResolved Sample.dora) Sample.asked_twice in
  ChatContext.friends (ui (ChatContextActions.world accepted))
  = [Sample.carl; Sample.dora; Sample.dora]
  /\ ChatContext.friendRequests (ui (ChatContextActions.world accepted)) = [].
Proof. split; reflexivity. Qed.

(** X15: [sendFriendRequest] never changes the provider's state.  Without a
    user it issues no request and resolves with [success] false.  With one
    it issues one POST; it resolves with [success] true when the request
    does; on a failure it logs the error and resolves with [success] false,
    the message being the server's (or a default) for a 409 whose response
    has a body, and one fixed string for every other status and for no
    response at all.  For a 409 whose response has no body the handler's
    own [catch] throws on [error.response.data.message], and the promise
    rejects: that is the only way it does. *)
Theorem send_friend_request_result (user : option AuthContext.User) (userId : jsstring)
    (net : ChatContextActions.RequestOutcome) (w : World ChatContext.State) :
  let result := ChatContextActions.sendFriendRequest user userId net w in
  ui result.1 = ui w
  /\ (user = None ->
      sent result.1 = sent w
      /\ result.2 = ChatContextActions.Resolves false
                      (lit "You must be logged in to send friend requests"))
  /\ (user <> None ->
      sent result.1
      = sent w ++ [{| method := POST; url := lit "http://localhost:5000/api/friends/request";
                      body := Some [("receiverId"%string, userId)] |}]
      /\ (net = ChatContextActions.RequestDone ->
          result.2 = ChatContextActions.Resolves true (lit "Friend request sent successfully!")
          /\ console result.1 = console w)
      /\ (forall error response, net = ChatContextActions.RequestFailed error response ->
            console result.1
            = console w ++ [("Failed to send friend request:"%string, LogError error)]
            /\ result.2
               = match response with
                 | Some r =>
                     if decide (ChatContextActions.response_status r = 409)
                     then match ChatContextActions.response_data r with
                          | Some message =>
                              ChatContextActions.Resolves false
                                (or_default message
                                   (lit "You are already friends or have already sent a request to this user"))
                          | None => ChatContextActions.RejectsTypeError
                          end
                     else ChatContextActions.Resolves false
                            (lit "Failed to send friend request. Please try again later.")
                 | None => ChatContextActions.Resolves false
                             (lit "Failed to send friend request. Please try again later.")
                 end)
      /\ (result.2 = ChatContextActions.RejectsTypeError
          <-> exists error r,
                net = ChatContextActions.RequestFailed error (Some r)
                /\ ChatContextActions.response_status r = 409
                /\ ChatContextActions.response_data r = None)).
Proof.
  cbv zeta. unfold ChatContextActions.sendFriendRequest. split_and!.
  - destruct user; [|reflexivity].
    destruct net as [e [r|]|]; simpl; [|reflexivity..].
    destruct (ChatContextActions.response_status r =? 409); [|reflexivity].
    destruct (ChatContextActions.response_data r); reflexivity.
  - intros ->. split; reflexivity.
  - intros Huser. destruct user as [u|]; [|congruence]. split_and!.
    + destruct net as [e [r|]|]; simpl; [|reflexivity..].
      destruct (ChatContextActions.response_status r =? 409); [|reflexivity].
      destruct (ChatContextActions.response_data r); reflexivity.
    + intros ->. split; reflexivity.
    + intros error response ->. destruct response as [r|]; simpl; [|split; reflexivity].
      destruct (Z.eqb_spec (ChatContextActions.response_status r) 409) as [H|H];
        destruct (decide (ChatContextActions.response_status r = 409));
        try contradiction; [|split; reflexivity].
      destruct (ChatContextActions.response_data r); split; reflexivity.
    + split.
      * destruct net as [e [r|]|]; simpl; try discriminate.
        destruct (Z.eqb_spec (ChatContextActions.response_status r) 409) as [H|H];
          [|discriminate].
        destruct (ChatContextActions.response_data r) eqn:Hdata; [discriminate|].
        intros _. by exists e, r.
      * intros (e & r & -> & Hstatus & Hdata). simpl.
        rewrite Hstatus, Hdata. reflexivity.
Qed.

(** ** NotificationProvider: reading, deleting and clearing *)

Lemma array_filter_map_length {A} (p : A -> bool) (f : A -> A) (arr : list A) :
  (forall x, p (f x) = true -> p x = true) ->
  (length (array_filter p (array_map f arr)) <= length (array_filter p arr))%nat.
Proof.
  intros Hf. unfold array_map. induction arr as [|x arr IH]; simpl; [lia|].
  destruct (p (f x)) eqn:Hfx.
  - rewrite (Hf x Hfx). simpl. lia.
  - destruct (p x); simpl; lia.
Qed.

Lemma array_filter_filter_length {A} (p q : A -> bool) (arr : list A) :
  (length (array_filter p (array_filter q arr)) <= length (array_filter p arr))%nat.
Proof.
  induction arr as [|x arr IH]; simpl; [lia|].
  destruct (q x); simpl; destruct (p x); simpl; lia.
Qed.

Lemma array_filter_length {A} (p : A -> bool) (arr : list A) :
  (length (array_filter p arr) <= length arr)%nat.
Proof. apply sublist_length, array_filter_sublist. Qed.

Lemma array_filter_none {A} (p : A -> bool) (arr : list A) :
  (forall x, x ∈ arr -> p x = false) -> array_filter p arr = [].
Proof.
  induction arr as [|x arr IH]; intros H; simpl; [reflexivity|].
  rewrite (H x) by apply list_elem_of_here.
  apply IH. intros y Hy. apply H. by apply list_elem_of_further.
Qed.

Lemma action_with_token (label : string) (default_message : jsstring) (request : Request)
    (apply : NotificationContext.State -> NotificationContext.State)
    (user : AuthContext.User) (token : option jsstring) (d : unit)
    (w : World NotificationContext.State) :
  truthy (default [] token) = true ->
  NotificationActions.action label default_message request apply (Some user) token
    (AxiosDone d) w
  = (w |> fetch request |> update apply, None).
Proof. intros Ht. unfold NotificationActions.action. by rewrite Ht. Qed.

(** X16: the unread count never exceeds the number of notifications.  When
    [markAllAsRead] goes through, the count is 0 and the notifications are
    the same ones in the same order, all read.  When [markAsRead] goes
    through, the list has the same length, each entry with the given id is
    read, each other entry is as before, and the count has not grown. *)
Theorem mark_read_counts (user : AuthContext.User) (token : option jsstring)
    (notificationId : jsstring) (w : World NotificationContext.State) :
  truthy (default [] token) = true ->
  let all := (NotificationActions.markAllAsRead (Some user) token (AxiosDone ()) w).1 in
  let one :=
    (NotificationActions.markAsRead notificationId (Some user) token (AxiosDone ()) w).1 in
  (NotificationActions.unreadCount (ui w)
   <= length (NotificationContext.notifications (ui w)))%nat
  /\ NotificationActions.unreadCount (ui all) = 0%nat
  /\ NotificationContext.notifications (ui all)
     = array_map NotificationActions.as_read (NotificationContext.notifications (ui w))
  /\ (NotificationActions.unreadCount (ui one) <= NotificationActions.unreadCount (ui w))%nat
  /\ length (NotificationContext.notifications (ui one))
     = length (NotificationContext.notifications (ui w))
  /\ (forall i n, NotificationContext.notifications (ui w) !! i = Some n ->
        NotificationContext.notifications (ui one) !! i
        = Some (if decide (NotificationContext.id n = notificationId)
                then NotificationActions.as_read n else n)).
Proof.
  intros Ht. cbv zeta.
  unfold NotificationActions.markAllAsRead, NotificationActions.markAsRead.
  rewrite !action_with_token by exact Ht. simpl.
  unfold NotificationActions.unreadCount. simpl. split_and!.
  - apply array_filter_length.
  - rewrite array_filter_none; [reflexivity|].
    intros n Hn. unfold array_map in Hn. apply list_elem_of_fmap in Hn as (m & -> & _).
    reflexivity.
  - reflexivity.
  - apply array_filter_map_length. intros n.
    destruct (str_eq (NotificationContext.id n) notificationId); [discriminate|trivial].
  - unfold array_map. apply length_map.
  - intros i n Hi. rewrite array_map_lookup, Hi. simpl. f_equal.
    destruct (decide (NotificationContext.id n = notificationId)) as [H|H].
    + apply str_eq_true in H. by rewrite H.
    + apply str_eq_false in H. by rewrite H.
Qed.

Lemma mark_read_counts_witness :
  NotificationActions.unreadCount (ui Sample.two_unread) = 2%nat
  /\ NotificationActions.unreadCount
       (ui (NotificationActions.markAllAsRead (Some Sample.ann_auth) Sample.a_token
              (AxiosDone ()) Sample.two_unread).1) = 0%nat.
Proof.
  split; [reflexivity|].
  exact (proj1 (proj2 (mark_read_counts Sample.ann_auth Sample.a_token (lit "n1")
                         Sample.two_unread eq_refl))).
Defined.

(** X17: when [deleteNotification] goes through, the list loses exactly the
    entries with the given id, the rest keep their order, and the unread
    count has not grown; when [clearAllNotifications] goes through, the list
    is empty and the count is 0. *)
Theorem delete_and_clear_all (user : AuthContext.User) (token : option jsstring)
    (notificationId : jsstring) (w : World NotificationContext.State) :
  truthy (default [] token) = true ->
  let deleted :=
    (NotificationActions.deleteNotification notificationId (Some user) token
       (AxiosDone ()) w).1 in
  let cleared :=
    (NotificationActions.clearAllNotifications (Some user) token (AxiosDone ()) w).1 in
  NotificationContext.notifications (ui deleted)
    `sublist_of` NotificationContext.notifications (ui w)
  /\ (forall n, n ∈ NotificationContext.notifications (ui deleted)
        <-> n ∈ NotificationContext.notifications (ui w)
            /\ NotificationContext.id n <> notificationId)
  /\ (NotificationActions.unreadCount (ui deleted)
      <= NotificationActions.unreadCount (ui w))%nat
  /\ NotificationContext.notifications (ui cleared) = []
  /\ NotificationActions.unreadCount (ui cleared) = 0%nat.
Proof.
  intros Ht. cbv zeta.
  unfold NotificationActions.deleteNotification, NotificationActions.clearAllNotifications.
  rewrite !action_with_token by exact Ht. simpl. split_and!.
  - apply array_filter_sublist.
  - intros n. by rewrite array_filter_elem_of, negb_true_iff, str_eq_false.
  - apply array_filter_filter_length.
  - reflexivity.
  - reflexivity.
Qed.

Lemma delete_and_clear_all_witness :
  (NotificationActions.unreadCount
     (ui (NotificationActions.deleteNotification (lit "n1") (Some Sample.ann_auth)
            Sample.a_token (AxiosDone ()) Sample.two_unread).1)
   <= NotificationActions.unreadCount (ui Sample.two_unread))%nat
  /\ NotificationContext.notifications
       (ui (NotificationActions.clearAllNotifications (Some Sample.ann_auth)
              Sample.a_token (AxiosDone ()) Sample.two_unread).1)
     = [].
Proof.
  destruct (delete_and_clear_all Sample.ann_auth Sample.a_token (lit "n1")
              Sample.two_unread eq_refl) as (_ & _ & Hcount & Hcleared & _).
  split; assumption.
Defined.

Example delete_request_from_bob :
  NotificationContext.notifications
    (ui (NotificationActions.deleteNotification (lit "n1") (Some Sample.ann_auth)
           Sample.a_token (AxiosDone ()) Sample.two_unread).1)
  = [Sample.welcome].
Proof. reflexivity. Qed.

Lemma action_fails (label : string) (default_message : jsstring) (request : Request)
    (apply : NotificationContext.State -> NotificationContext.State) :
  fails_with label default_message request
    (NotificationActions.action label default_message request apply).
Proof.
  intros user token net error w. unfold NotificationActions.action. split_and!.
  - reflexivity.
  - intros ->. reflexivity.
  - intros ->. simpl. split_and!; [reflexivity..|].
    unfold NotificationActions.rethrow. simpl. do 2 f_equal.
    destruct (response_message error) as [[|c m]|]; reflexivity.
Qed.

(** X18: the four actions of the NotificationProvider fail alike.  Without
    a user they do nothing and resolve.  With a user but no token they issue
    no request, log the missing token and reject with the action's default
    message (the missing token is not what the caller is told).  When the
    request is rejected they log it, leave the notifications as they are
    and reject with the message of the server's answer when it has a
    non-empty one, and with the action's default otherwise. *)
Theorem notification_action_failures (notificationId : jsstring) :
  fails_with "Failed to mark notification as read:"
    (lit "Failed to mark notification as read")
    {| method := PUT; url := lit "/api/notifications/" ++ notificationId ++ lit "/read";
       body := Some [] |}
    (NotificationActions.markAsRead notificationId)
  /\ fails_with "Failed to mark all notifications as read:"
       (lit "Failed to mark all notifications as read")
       {| method := PUT; url := lit "/api/notifications/read-all"; body := Some [] |}
       NotificationActions.markAllAsRead
  /\ fails_with "Failed to delete notification:"
       (lit "Failed to delete notification")
       {| method := DELETE; url := lit "/api/notifications/" ++ notificationId;
          body := None |}
       (NotificationActions.deleteNotification notificationId)
  /\ fails_with "Failed to clear all notifications:"
       (lit "Failed to clear all notifications")
       {| method := DELETE; url := lit "/api/notifications/clear-all"; body := None |}
       NotificationActions.clearAllNotifications.
Proof. split_and!; apply action_fails. Qed.

Example mark_as_read_without_token :
  (NotificationActions.markAsRead (lit "n1") (Some Sample.ann_auth) None (AxiosDone ())
     Sample.two_unread).2
  = Some (Error (lit "Failed to mark notification as read")).
Proof. reflexivity. Qed.

Example delete_not_found :
  (NotificationActions.deleteNotification (lit "n7") (Some Sample.ann_auth) Sample.a_token
     (AxiosFailed Sample.not_found) Sample.two_unread).2
  = Some (Error (lit "Notification not found")).
Proof. reflexivity. Qed.

(** ** AuthProvider: the token and the user *)

(** X19: [checkAuth] always ends with [loading] false.  The user is set,
    to what the server returns, only when a token is stored and the request
    resolves, and the token is kept then.  In every other case the user is
    null, the stored token is removed and the failure is logged; with no
    token stored no request is issued. *)
Theorem check_auth_outcome (net : AxiosResult AuthContext.User) (a : AuthProvider.Auth) :
  AuthProvider.loading (ui (AuthProvider.provider (AuthProvider.checkAuth net a))) = false
  /\ (forall data, truthy (default [] (AuthProvider.token a)) = true ->
        net = AxiosResolved data ->
        AuthProvider.user (ui (AuthProvider.provider (AuthProvider.checkAuth net a)))
        = Some data
        /\ AuthProvider.token (AuthProvider.checkAuth net a) = AuthProvider.token a
        /\ console (AuthProvider.provider (AuthProvider.checkAuth net a))
           = console (AuthProvider.provider a))
  /\ (truthy (default [] (AuthProvider.token a)) = false \/ axios_success net = false ->
      AuthProvider.user (ui (AuthProvider.provider (AuthProvider.checkAuth net a))) = None
      /\ AuthProvider.token (AuthProvider.checkAuth net a) = None
      /\ exists error,
           console (AuthProvider.provider (AuthProvider.checkAuth net a))
           = console (AuthProvider.provider a)
             ++ [("Auth check failed:"%string, LogError error)])
  /\ (truthy (default [] (AuthProvider.token a)) = false ->
      sent (AuthProvider.provider (AuthProvider.checkAuth net a))
      = sent (AuthProvider.provider a)).
Proof.
  unfold AuthProvider.checkAuth. split_and!.
  - destruct (truthy (default [] (AuthProvider.token a))); [destruct net|]; reflexivity.
  - intros data -> ->. split_and!; reflexivity.
  - intros [->|Hnet].
    + split_and!; [reflexivity..|eexists; reflexivity].
    + destruct net as [e|d]; [|discriminate].
      destruct (truthy (default [] (AuthProvider.token a)));
        (split_and!; [reflexivity..|eexists; reflexivity]).
  - intros ->. reflexivity.
Qed.

(** X20: [login] stores the token and sets the user exactly when the
    request resolves; when it is rejected the token and the user are as
    before and the promise rejects with the server's message, or "Login
    failed" when there is none.  [logout] removes the token and the user,
    and a [checkAuth] after it issues no request and leaves the user
    null, whatever the server would say. *)
Theorem login_then_logout (email password : jsstring) (net : AxiosOutcome AuthProvider.Granted)
    (reply : AxiosResult AuthContext.User) (a : AuthProvider.Auth) :
  let after := AuthProvider.login email password net a in
  (forall granted, net = AxiosDone granted ->
     AuthProvider.token after.1 = Some (AuthProvider.granted_token granted)
     /\ AuthProvider.user (ui (AuthProvider.provider after.1))
        = Some (AuthProvider.granted_user granted)
     /\ after.2 = None)
  /\ (forall error, net = AxiosFailed error ->
        AuthProvider.token after.1 = AuthProvider.token a
        /\ ui (AuthProvider.provider after.1) = ui (AuthProvider.provider a)
        /\ after.2
           = Some (Error (match response_message error with
                          | Some m => if decide (m = []) then lit "Login failed" else m
                          | None => lit "Login failed"
                          end)))
  /\ AuthProvider.token (AuthProvider.logout after.1) = None
  /\ AuthProvider.user (ui (AuthProvider.provider (AuthProvider.logout after.1))) = None
  /\ AuthProvider.user
       (ui (AuthProvider.provider (AuthProvider.checkAuth reply (AuthProvider.logout after.1))))
     = None
  /\ sent (AuthProvider.provider (AuthProvider.checkAuth reply (AuthProvider.logout after.1)))
     = sent (AuthProvider.provider after.1).
Proof.
  cbv zeta. split_and!; try reflexivity.
  - intros granted ->. split_and!; reflexivity.
  - intros error ->. simpl. split_and!; [reflexivity..|]. do 2 f_equal.
    destruct (response_message error) as [[|c m]|]; reflexivity.
Qed.

Example login_wrong_password :
  (AuthProvider.login (lit "ann@example.org") (lit "nope")
     (AxiosFailed Sample.wrong_password) Sample.logged_out).2
  = Some (Error (lit "Wrong password")).
Proof. reflexivity. Qed.

(** X21: [updateProfile] with no token stored issues no request, changes
    nothing and rejects with "Profile update failed".  With a token it
    issues one PUT of the data; when it resolves the user becomes what the
    server returned (not what was sent), and when it is rejected the user is
    as before and the promise rejects with the server's message or "Profile
    update failed". *)
Theorem update_profile_outcome (data : list (string * jsstring))
    (net : AxiosOutcome AuthContext.User) (a : AuthProvider.Auth) :
  let after := AuthProvider.updateProfile data net a in
  (truthy (default [] (AuthProvider.token a)) = false ->
   after = (a, Some (Error (lit "Profile update failed"))))
  /\ (truthy (default [] (AuthProvider.token a)) = true ->
      sent (AuthProvider.provider after.1)
      = sent (AuthProvider.provider a)
        ++ [{| method := PUT; url := lit "/api/users/profile"; body := Some data |}]
      /\ AuthProvider.token after.1 = AuthProvider.token a
      /\ (forall returned, net = AxiosDone returned ->
            AuthProvider.user (ui (AuthProvider.provider after.1)) = Some returned
            /\ after.2 = None)
      /\ (forall error, net = AxiosFailed error ->
            ui (AuthProvider.provider after.1) = ui (AuthProvider.provider a)
            /\ after.2
               = Some (Error (match response_message error with
                              | Some m =>
                                  if decide (m = []) then lit "Profile update failed" else m
                              | None => lit "Profile update failed"
                              end)))).
Proof.
  cbv zeta. unfold AuthProvider.updateProfile. split.
  - intros ->. reflexivity.
  - intros ->. split_and!.
    + destruct net; reflexivity.
    + destruct net; reflexivity.
    + intros returned ->. split; reflexivity.
    + intros error ->. simpl. split; [reflexivity|]. do 2 f_equal.
      destruct (response_message error) as [[|c m]|]; reflexivity.
Qed.

(** ** Profile.tsx: saving the profile *)

(** X22: saving the profile issues one PUT of the bio and the avatar typed
    and ends with [isLoading] false.  When the server responds success and
    a user is logged in, the parent's user becomes the old user with the
    typed bio and avatar (the username is untouched; the response's body is
    not consulted for them) and the same user is stored in localStorage.  On
    every other outcome the user and the stored copy are as before. *)
Theorem profile_saved (net : FetchResult unit) (p : Profile.Page) :
  sent (Profile.screen (Profile.handleSubmit net p))
  = sent (Profile.screen p)
    ++ [{| method := PUT; url := lit "http://localhost:5000/api/profile";
           body := Some [("bio"%string, Profile.bio (ui (Profile.screen p)));
                         ("avatar"%string, Profile.avatar (ui (Profile.screen p)))] |}]
  /\ Profile.isLoading (ui (Profile.screen (Profile.handleSubmit net p))) = false
  /\ (forall u, responds_success net = true ->
        Profile.user p = Some u ->
        Profile.user (Profile.handleSubmit net p)
        = Some {| User.username := User.username u;
                  User.bio := Profile.bio (ui (Profile.screen p));
                  User.avatar := Profile.avatar (ui (Profile.screen p)) |}
        /\ Profile.stored_user (Profile.handleSubmit net p)
           = Profile.user (Profile.handleSubmit net p))
  /\ (responds_success net = false \/ Profile.user p = None ->
      Profile.user (Profile.handleSubmit net p) = Profile.user p
      /\ Profile.stored_user (Profile.handleSubmit net p) = Profile.stored_user p)
  /\ (request_failed net = true ->
      Profile.error (ui (Profile.screen (Profile.handleSubmit net p))) = NETWORK_ERROR).
Proof.
  unfold Profile.handleSubmit. split_and!.
  - destruct net as [e|[] [e|[[] m|m]]]; destruct (Profile.user p); reflexivity.
  - destruct net as [e|[] [e|[[] m|m]]]; destruct (Profile.user p); reflexivity.
  - intros u Hok Hu. destruct net as [e|[] [e|[[] m|m]]]; try discriminate.
    rewrite Hu. split; reflexivity.
  - intros [Hfail|Hnone].
    + destruct net as [e|[] [e|[[] m|m]]]; try discriminate; split; reflexivity.
    + destruct p as [sc [u|] st]; [discriminate|].
      destruct net as [e|[] [e|[[] m|m]]]; split; reflexivity.
  - intros Hfail. destruct net as [e|[] [e|[[] m|m]]]; try discriminate; reflexivity.
Qed.

Example profile_saved_for_ann :
  Profile.user (Profile.handleSubmit Sample.created Sample.ann_profile)
  = Some {| User.username := lit "ann"; User.bio := lit "hello there";
            User.avatar := lit "ann.png" |}.
Proof. reflexivity. Qed.

(** ** Reloads *)

(** X23: [fetchNotifications] of the Notifications screen replaces the list
    by the server's when the server responds success, and clears the error
    banner; on every other outcome the list is as before and a non-empty
    error is shown.  A notification pushed over the socket before the
    answer arrives is kept only if the server's list has it. *)
Theorem notifications_reloaded (net : FetchResult (list jsstring)) (pushed : jsstring)
    (w : World Notifications.State) :
  let after := Notifications.fetchNotifications net (Notifications.on_new_notification pushed w) in
  Notifications.isLoading (ui after) = false
  /\ (forall data, success_payload net = Some data ->
        Notifications.notifications (ui after) = data
        /\ Notifications.error (ui after) = None)
  /\ (success_payload net = None ->
      Notifications.notifications (ui after)
      = Notifications.notifications (ui w) ++ [pushed]
      /\ exists shown, Notifications.error (ui after) = Some shown /\ shown <> []).
Proof.
  cbv zeta. split_and!.
  - destruct net as [e|[] [e|[l m|m]]]; reflexivity.
  - intros data Hdata. destruct net as [e|[] [e|[l m|m]]]; try discriminate.
    injection Hdata as ->. split; reflexivity.
  - intros Hnone. destruct net as [e|[] [e|[l m|m]]]; try discriminate;
      (split; [reflexivity|]); eexists; (split; [reflexivity|]);
      first [discriminate | apply truthy_not_nil, or_default_truthy; reflexivity].
Qed.

(** X24: [fetchSuggestions] of FriendsList can change the suggestions and
    nothing else: every other cell of the screen, the error banner among
    them, is as before, whatever the request comes to; a failure is only
    logged. *)
Theorem suggestions_fail_silently (net : FetchResult (list FriendsList.Friend))
    (w : World FriendsList.State) :
  FriendsList.setSuggestions (FriendsList.suggestions (ui w))
    (ui (FriendsList.fetchSuggestions net w)) = ui w
  /\ FriendsList.suggestions (ui (FriendsList.fetchSuggestions net w))
     = default (FriendsList.suggestions (ui w)) (success_payload net)
  /\ (request_failed net = true ->
      exists error, console (FriendsList.fetchSuggestions net w)
                    = console w ++ [("Error fetching suggestions:"%string, LogError error)])
  /\ (request_failed net = false -> console (FriendsList.fetchSuggestions net w) = console w).
Proof.
  destruct w as [s c r k]. split_and!.
  - destruct net as [e|[] [e|[l m|m]]]; simpl; by destruct s.
  - destruct net as [e|[] [e|[l m|m]]]; reflexivity.
  - intros H. destruct net as [e|[] [e|[l m|m]]]; try discriminate; eexists; reflexivity.
  - intros H. destruct net as [e|[] [e|[l m|m]]]; try discriminate; reflexivity.
Qed.

(** X25: [loadMessages] replaces the chat's messages by the server's
    history and touches no other chat; a message that a ['message'] event
    filed in that chat before the history arrived is kept only if the
    history has it.  When the request is rejected, or there is no user, the
    chats are as they were. *)
Theorem history_replaces_chat (user : AuthContext.User) (friendId : jsstring)
    (net : AxiosResult (list ChatContext.Message.Message))
    (pushed : ChatContext.Message.Message) (w : World ChatContext.State) :
  let before :=
    w |> update (fun s =>
           ChatContext.setMessages
             (ChatContext.on_message (Some user) pushed (ChatContext.messages s)) s) in
  let after := ChatContextActions.loadMessages (Some user) friendId net before in
  (forall data, net = AxiosResolved data ->
     ChatContext.messages (ui after) !! friendId = Some data
     /\ (forall chat, chat <> friendId ->
           ChatContext.messages (ui after) !! chat
           = ChatContext.messages (ui before) !! chat))
  /\ (forall e, net = AxiosRejected e ->
        ChatContext.messages (ui after) = ChatContext.messages (ui before))
  /\ ChatContextActions.loadMessages None friendId net w = w.
Proof.
  cbv zeta. split_and!.
  - intros data ->. simpl. split; [apply lookup_insert_eq|].
    intros chat Hchat. by rewrite lookup_insert_ne.
  - intros e ->. reflexivity.
  - reflexivity.
Qed.

